(** * pymino.ext.context: event dispatch, command routing and reply-wait

    A shallow embedding of [src/pymino/ext/context.py]: the parameter
    resolver [_set_parameters], the command router [_handle_command] with
    its cooldown check [_check_cooldown], the dispatcher [_handle_event], the
    reply-wait cache writer [_add_cache] and the polling primitive
    [Context.wait_for_message].

    Conventions.
    - Python exceptions are the [Raise] results of a state-and-error monad
      [M]; the state a raising call has already written is kept, as in
      Python.
    - [time()] returns float seconds; here a clock reading is an integer
      number of microseconds, so [int(x)] of a difference of readings is
      [Z.quot _ 1000000] (truncation towards zero).
    - A Python [str] is the string of the bytes of its UTF-8 encoding;
      [len] and slices count code points ([PyStr.len], [PyStr.drop],
      [PyStr.take]).
    - Every reply sent, every handler called and every operation on the
      cooldown table and on the on-disk cache is appended, in program
      order, to the [trace] of the state.
    - A handler is taken by its outcome, the value it returns or the
      exception it raises.  What the body of a handler does through its
      context on the way is not part of a dispatch here: where a statement
      gives the clock, the cooldown table or the cache after a call, it
      is for a handler that leaves these alone. *)

From Stdlib Require Import ZArith Lia Ascii String.
From stdpp Require Import gmap strings list fin_maps pretty.

Open Scope string_scope.
Open Scope list_scope.
Open Scope Z_scope.

(** ** Python string operations used by the router *)

Module PyStr.

(** A Python [str] is a sequence of code points; [len] and slices count
    code points.  A text is held here as the bytes of its UTF-8 encoding:
    a byte of the form [10xxxxxx] continues the code point begun before
    it, every other byte begins one. *)
Definition continuation (c : ascii) : bool :=
  match c with
  | Ascii _ _ _ _ _ _ b6 b7 => b7 && negb b6
  end.

(** The continuation bytes in front of [s]. *)
Fixpoint continued (s : string) : string :=
  match s with
  | String c s' =>
      if continuation c then String c (continued s') else EmptyString
  | EmptyString => EmptyString
  end.

(** [s] without the continuation bytes in front of it. *)
Fixpoint next (s : string) : string :=
  match s with
  | String c s' => if continuation c then next s' else String c s'
  | EmptyString => EmptyString
  end.

(** The number of bytes of [s] that begin a code point. *)
Fixpoint scalars (s : string) : nat :=
  match s with
  | String c s' => if continuation c then scalars s' else S (scalars s')
  | EmptyString => O
  end.

(** [len(s)]: the first byte of a text begins a code point, and so does
    every later byte that is not a continuation byte. *)
Definition len (s : string) : nat :=
  match s with
  | String _ s' => S (scalars s')
  | EmptyString => O
  end.

(** [s[n:]]: [s] without its first [n] code points; a start past the end
    gives the empty string. *)
Fixpoint drop (n : nat) (s : string) {struct n} : string :=
  match n, s with
  | O, _ => s
  | S n', String _ s' => drop n' (next s')
  | S _, EmptyString => EmptyString
  end.

(** [s[:n]]: the first [n] code points of [s]. *)
Fixpoint take (n : nat) (s : string) {struct n} : string :=
  match n, s with
  | O, _ => EmptyString
  | S n', String a s' => String a (continued s' +:+ take n' (next s'))
  | S _, EmptyString => EmptyString
  end.

(** [s] is empty or begins with a byte that begins a code point, as every
    text does, and every piece of a text cut between two code points. *)
Definition aligned (s : string) : bool :=
  match s with
  | String c _ => negb (continuation c)
  | EmptyString => true
  end.

(** [s.split(" ")[0]]: the characters before the first space (the whole
    string when it has none; the empty string for the empty string). *)
Fixpoint first_token (s : string) : string :=
  match s with
  | EmptyString => EmptyString
  | String a s' =>
      if Ascii.eqb a " "%char then EmptyString else String a (first_token s')
  end.

(** No space character occurs in [s]. *)
Fixpoint spaceless (s : string) : bool :=
  match s with
  | EmptyString => true
  | String a s' => negb (Ascii.eqb a " "%char) && spaceless s'
  end.

End PyStr.

(** ** Entities read by the dispatcher

    [.entities] is imported by the source but is not part of it; the records
    below carry exactly the attributes the dispatcher reads.  An attribute
    that is missing or holds Python's [None] is [None] here: both raise
    [AttributeError] on a further attribute access. *)

Record MessageAuthor := mkAuthor {
  username : string;
  userId : string
}.

Record Message := mkMessage {
  content : option string;
  chatId : string;
  comId : Z;
  author : option MessageAuthor
}.

(** [Context(message, session, intents)]. *)
Record Context := mkContext {
  ctx_intents : bool;
  ctx_message : Message
}.

(** [Context.author]: [with suppress(AttributeError): return
    self.message.author]. *)
Definition Context_author (c : Context) : option MessageAuthor :=
  author (ctx_message c).

Inductive exn :=
| KeyError
| AttributeError
| TypeError
| IntentsNotEnabled
| NotFound
| HandlerError (what : string).

Inductive result (A : Type) :=
| Ok (a : A)
| Raise (e : exn).
Arguments Ok {A} a.
Arguments Raise {A} e.

(** Python values handed to handlers or returned by them. *)
Inductive value :=
| VNone
| VStr (s : string)
| VInt (n : Z)
| VCtx (c : Context)
| VMember (a : MessageAuthor)
| VData (m : Message)
| VCMessage (sent : string).

(** A registered callable: its [__name__], the parameter names
    [inspect.signature] reports, and what a call with given arguments
    produces (a returned value or a raised exception). *)
Record callable := mkCallable {
  fn_name : string;
  parameters : list string;
  run : list value -> result value
}.

(** Observable effects, in program order. *)
Inductive effect :=
| Replied (text : string)
| Called (f : callable) (args : list value)
| CooldownSet (command_name user : string) (expiry : Z)
| CacheGet (key : string) (found : option string)
| CacheClear
| CacheAdd (key value : string) (expire_time : Z).

(** ** The command table

    [.utilities.commands] ([Command], [Commands]) is imported by the source
    but is not part of it.  The router only uses the operations below. *)

Record Command := mkCommand {
  func : callable;
  name : string;
  description : option string;
  usage : option string;
  aliases : list string;
  cooldown : Z
}.

(** Modelled from the spec: the [Commands] table of [.utilities.commands],
    which is missing from the source.  Commands are stored by canonical
    name, with a secondary alias-to-canonical-name lookup. *)
Record Commands := mkCommands {
  by_name : gmap string Command;
  by_alias : gmap string string
}.

Module CommandTable.

Definition empty : Commands := mkCommands ∅ ∅.

(** Modelled from the spec: [add_command] of the missing [Commands] class.
    Inserts by canonical name and records every alias; the last write
    wins. *)
Definition add_command (c : Command) (t : Commands) : Commands :=
  mkCommands (<[name c := c]> (by_name t))
             (foldr (fun a m => <[a := name c]> m) (by_alias t) (aliases c)).

(** Modelled from the spec: [fetch_command] of the missing [Commands]
    class.  Fails with NotFound when the name is neither a canonical name
    nor an alias. *)
Definition fetch_command (t : Commands) (n : string) : result Command :=
  match by_name t !! n with
  | Some c => Ok c
  | None =>
      match by_alias t !! n with
      | Some cn =>
          match by_name t !! cn with
          | Some c => Ok c
          | None => Raise NotFound
          end
      | None => Raise NotFound
      end
  end.

(** Modelled from the spec: [__help__] of the missing [Commands] class.
    One line [name — description] per command that has a description;
    commands without one are left out. *)
Definition __help__ (t : Commands) : string :=
  foldr (fun '(n, c) acc =>
           match description c with
           | Some d => n +:+ " — " +:+ d +:+ "
" +:+ acc
           | None => acc
           end) "" (map_to_list (by_name t)).

(** Modelled from the spec: the cooldown record read by [fetch_cooldown] of
    the missing [Commands] class.  Keyed by (command name, userId), it
    holds the absolute expiry time; an absent record reads as 0. *)
Definition fetch_cooldown (cd : gmap (string * string) Z)
    (command_name user : string) : Z :=
  default 0 (cd !! (command_name, user)).

End CommandTable.

(** ** The bot and its mutable state *)

(** What registration fixes before events arrive. *)
Record Bot := mkBot {
  command_prefix : string;
  intents : bool;
  _events : gmap string callable;
  _commands : Commands
}.

(** [self._events[name] = func], the body of every [on_*] decorator. *)
Definition register (event : string) (f : callable) (b : Bot) : Bot :=
  mkBot (command_prefix b) (intents b) (<[event := f]> (_events b))
        (_commands b).

Definition on_error := register "error".
Definition on_text_message := register "text_message".
Definition _console_on_text_message := register "_console_text_message".

(** [self._commands.add_command(Command(...))], the body of the [command]
    decorator. *)
Definition command (c : Command) (b : Bot) : Bot :=
  mkBot (command_prefix b) (intents b) (_events b)
        (CommandTable.add_command c (_commands b)).

(** What changes while events are handled.  [tick] counts the clock
    readings taken so far; [wait_for] is the content of the diskcache
    directory ["cache"], shared by [EventHandler._wait_for] and by the
    [Cache("cache")] that [wait_for_message] opens: key to (value,
    expire_time). *)
Record State := mkState {
  tick : nat;
  cooldowns : gmap (string * string) Z;
  wait_for : gmap string (string * Z);
  trace : list effect
}.

Definition us_per_second : Z := 1000000.

(** ** The state-and-error monad *)

Definition M (A : Type) : Type := State -> result A * State.

Definition ret {A} (a : A) : M A := fun s => (Ok a, s).
Definition raise {A} (e : exn) : M A := fun s => (Raise e, s).
Definition bind {A B} (m : M A) (k : A -> M B) : M B :=
  fun s => match m s with
           | (Ok a, s') => k a s'
           | (Raise e, s') => (Raise e, s')
           end.
Definition lift {A} (r : result A) : M A := fun s => (r, s).

Declare Scope py_scope.
Delimit Scope py_scope with py.
Notation "x <- m ;; k" := (bind m (fun x => k))
  (at level 100, m at next level, right associativity) : py_scope.
Notation "m ;;; k" := (bind m (fun _ => k))
  (at level 100, right associativity) : py_scope.
Open Scope py_scope.

(** [with suppress(KeyError): body] around a body whose value is the
    function's result: a [KeyError] ends the block and the function
    returns [None]. *)
Definition suppress_KeyError (m : M value) : M value :=
  fun s => match m s with
           | (Raise KeyError, s') => (Ok VNone, s')
           | r => r
           end.

Definition log (e : effect) : M unit :=
  fun s => (Ok tt, mkState (tick s) (cooldowns s) (wait_for s) (trace s ++ [e])).

(** A call of [func] on an argument list: the call is logged, and it
    returns or raises what [run] gives.  The handler's body is not run
    here, so a handler that itself waits for a reply ([ctx.wait_for_message]
    reads the clock and clears the cache) is not covered by what is said
    of the state after a call. *)
Definition call (f : callable) (args : list value) : M value :=
  log (Called f args) ;;; lift (run f args).

(** [context.reply(content)]: one request to the transport, returning the
    [CMessage] sent. *)
Definition reply (context : Context) (text : string) : M value :=
  log (Replied text) ;;; ret (VCMessage text).

(** Python's [k in d] for a dict. *)
Definition mem {A} (k : string) (d : gmap string A) : bool :=
  match d !! k with Some _ => true | None => false end.

(** The key of a reply-wait entry, [f"{chatId}_{userId}"]. *)
Definition cache_key (chat user : string) : string := chat +:+ "_" +:+ user.

(** ** The dispatcher *)

Section Dispatch.

(** The world a bot runs in: [clock k] is the value of the [k]-th call of
    [time()], and [text_first] tells in which order this process iterates
    the set literal [{"text_message", "_console_text_message"}] (the order
    of a set of strings depends on the process's hash seed). *)
Variable clock : nat -> Z.
Variable text_first : bool.
Variable bot : Bot.

(** The state after one more clock reading. *)
Definition tock (s : State) : State :=
  mkState (S (tick s)) (cooldowns s) (wait_for s) (trace s).

(** [time()] *)
Definition time : M Z := fun s => (Ok (clock (tick s)), tock s).

(** *** diskcache operations

    [diskcache] is a third-party package.  [Cache.get(key)] returns the
    value stored under [key] unless it is absent or its expire time has
    been reached, then [None].  [Cache.clear(retry=False)] removes ALL items
    of the cache: its only parameter is [retry], so the key that the source
    passes to it selects nothing.  [Cache.add(key, value, expire)] stores
    the value with expire time [now + expire] only when [key] holds no
    unexpired item. *)

Definition live (now : Z) (entry : option (string * Z)) : option string :=
  match entry with
  | Some (v, expire_time) => if now <? expire_time then Some v else None
  | None => None
  end.

Definition Cache_get (key : string) : M (option string) :=
  now <- time ;;
  fun s => let found := live now (wait_for s !! key) in
           (Ok found,
            mkState (tick s) (cooldowns s) (wait_for s)
                    (trace s ++ [CacheGet key found])).

Definition Cache_clear (retry : string) : M unit :=
  fun s => (Ok tt, mkState (tick s) (cooldowns s) ∅ (trace s ++ [CacheClear])).

Definition Cache_add (key value : string) (expire : Z) : M bool :=
  now <- time ;;
  fun s => match live now (wait_for s !! key) with
           | Some _ => (Ok false, s)
           | None =>
               let expire_time := now + expire * us_per_second in
               (Ok true,
                mkState (tick s) (cooldowns s)
                        (<[key := (value, expire_time)]> (wait_for s))
                        (trace s ++ [CacheAdd key value expire_time]))
           end.

(** [EventHandler._add_cache] *)
Definition _add_cache (chat user text : string) : M unit :=
  cached <- Cache_get (cache_key chat user) ;;
  (match cached with
   | Some _ => Cache_clear (cache_key chat user)
   | None => ret tt
   end) ;;;
  Cache_add (cache_key chat user) text 90 ;;;
  ret tt.

(** *** Command table access *)

(** [EventHandler.command_exists] *)
Definition command_exists (command_name : string) : bool :=
  mem command_name (by_name (_commands bot))
  || mem command_name (by_alias (_commands bot)).

(** [EventHandler.fetch_command] *)
Definition fetch_command (command_name : string) : M Command :=
  lift (CommandTable.fetch_command (_commands bot) command_name).

(** Modelled from the spec: [set_cooldown] of the missing [Commands] class
    records expiry = now + seconds. *)
Definition set_cooldown (command_name : string) (seconds : Z)
    (user : string) : M unit :=
  now <- time ;;
  fun s => let expiry := now + seconds * us_per_second in
           (Ok tt,
            mkState (tick s) (<[(command_name, user) := expiry]> (cooldowns s))
                    (wait_for s)
                    (trace s ++ [CooldownSet command_name user expiry])).

Definition fetch_cooldown (command_name user : string) : M Z :=
  fun s => (Ok (CommandTable.fetch_cooldown (cooldowns s) command_name user), s).

(** [data.author.userId]: [AttributeError] when there is no author. *)
Definition author_userId (data : Message) : M string :=
  match author data with
  | Some a => ret (userId a)
  | None => raise AttributeError
  end.

(** [data.content[...]]: [TypeError] when the content is [None]. *)
Definition subscript_content (data : Message) : M string :=
  match content data with
  | Some c => ret c
  | None => raise TypeError
  end.

(** *** Parameter resolution *)

Definition potential_parameters (context : Context) (member : MessageAuthor)
    (message username userId : value) : gmap string value :=
  {[ "ctx" := VCtx context;
     "member" := VMember member;
     "message" := message;
     "username" := username;
     "userId" := userId ]}.

(** [EventHandler._set_parameters].  The three guarded reads fall back to
    [None] on [AttributeError]; building the dict then evaluates
    [Member(context.author.json())] outside any guard. *)
Definition _set_parameters (context : Context) (func : callable)
    (message : value) : result (list value) :=
  let message :=
    match message with
    | VStr s => VStr s
    | _ => match content (ctx_message context) with
           | Some c => VStr c
           | None => VNone
           end
    end in
  let username :=
    match Context_author context with
    | Some a => VStr (username a)
    | None => VNone
    end in
  let userId :=
    match Context_author context with
    | Some a => VStr (userId a)
    | None => VNone
    end in
  match Context_author context with
  | None => Raise AttributeError
  | Some a =>
      Ok (map (fun parameter =>
                 default VNone
                   (potential_parameters context a message username userId
                      !! parameter))
              (parameters func))
  end.

(** [EventHandler._handle_all_events] *)
Definition _handle_all_events (event : string) (data : Message)
    (context : Context) : M value :=
  match _events bot !! event with
  | None => raise KeyError
  | Some func =>
      args <- lift (_set_parameters context func (VData data)) ;;
      call func args
  end.

(** *** The command router *)

Definition cooldown_text (seconds : Z) : string :=
  "You are on cooldown for " +:+ pretty seconds +:+ " seconds.".

(** [EventHandler._check_cooldown] *)
Definition _check_cooldown (command_name : string) (data : Message)
    (context : Context) : M Z :=
  c <- fetch_command command_name ;;
  if 0 <? cooldown c then
    user <- author_userId data ;;
    expiry <- fetch_cooldown command_name user ;;
    now <- time ;;
    if now <? expiry then
      user' <- author_userId data ;;
      expiry' <- fetch_cooldown command_name user' ;;
      now' <- time ;;
      reply context (cooldown_text (Z.quot (expiry' - now') us_per_second)) ;;;
      ret 403
    else
      c' <- fetch_command command_name ;;
      user' <- author_userId data ;;
      set_cooldown command_name (cooldown c') user' ;;;
      ret 200
  else ret 200.

(** The two generic text-message events, in this process's set order. *)
Definition text_events : list string :=
  if text_first then ["text_message"; "_console_text_message"]
  else ["_console_text_message"; "text_message"].

Fixpoint for_each (events : list string) (body : string -> M value) : M unit :=
  match events with
  | [] => ret tt
  | event :: rest => body event ;;; for_each rest body
  end.

(** [EventHandler._handle_command] *)
Definition _handle_command (data : Message) (context : Context) : M value :=
  text <- subscript_content data ;;
  let prefix_len := PyStr.len (command_prefix bot) in
  let command_name := PyStr.first_token (PyStr.drop prefix_len text) in
  if negb (command_exists command_name)
     || negb (String.eqb (command_prefix bot) (PyStr.take prefix_len text))
  then
    if String.eqb command_name "help"
       && String.eqb text (command_prefix bot +:+ "help")
    then reply context (CommandTable.__help__ (_commands bot))
    else if existsb (fun event => mem event (_events bot)) text_events
    then
      for_each text_events
        (fun event => _handle_all_events event data context) ;;;
      ret VNone
    else ret VNone
  else
  if negb (String.eqb (PyStr.take prefix_len text) (command_prefix bot))
  then ret VNone
  else
    let message :=
      PyStr.drop (prefix_len + PyStr.len command_name + 1) text in
    let command_name :=
      default command_name (by_alias (_commands bot) !! command_name) in
    response <- _check_cooldown command_name data context ;;
    if negb (response =? 403) then
      c <- fetch_command command_name ;;
      args <- lift (_set_parameters context (func c) (VStr message)) ;;
      call (func c) args
    else ret VNone.

(** The events whose payload is handed to the handler as it is. *)
Definition raw_events : list string :=
  ["user_online"; "member_set_you_host"; "member_set_you_cohost";
   "member_remove_your_cohost"].

(** [EventHandler._handle_event] *)
Definition _handle_event (event : string) (data : Message) : M value :=
  suppress_KeyError (
    (if String.eqb event "text_message" then
       let context := mkContext (intents bot) data in
       text <- subscript_content data ;;
       let known :=
         command_exists
           (PyStr.first_token
              (PyStr.drop (PyStr.len (command_prefix bot)) text)) in
       (if intents bot && negb known then
          user <- author_userId data ;;
          _add_cache (chatId data) user text
        else ret tt) ;;;
       _handle_command data context ;;;
       ret tt
     else ret tt) ;;;
    match _events bot !! event with
    | Some handler =>
        let context := mkContext (intents bot) data in
        if existsb (String.eqb event) raw_events
        then call handler [VData data]
        else _handle_all_events event data context
    | None => ret VNone
    end).

(** *** Waiting for a reply *)

(** One poll of the loop of [Context.wait_for_message] is decided by what
    [cache.get] finds: the awaited text, another text, or nothing.  The
    dispatcher records replies from other threads while the waiter polls:
    [others k] is what those threads did to the cache between the polls
    [k - 1] and [k]. *)
Definition interfere (f : gmap string (string * Z) -> gmap string (string * Z))
  : M unit :=
  fun s => (Ok tt, mkState (tick s) (cooldowns s) (f (wait_for s)) (trace s)).

Definition own_key (self : Context) : M string :=
  user <- author_userId (ctx_message self) ;;
  ret (cache_key (chatId (ctx_message self)) user).

Definition same_text (cached : option string) (message : string) : bool :=
  match cached with
  | Some v => String.eqb v message
  | None => false
  end.

(** The [while] loop with its exits; [None] when [fuel] iterations were
    not enough to leave it. *)
Fixpoint poll (others : nat -> gmap string (string * Z) -> gmap string (string * Z))
    (self : Context) (message : string) (timeout start : Z)
    (fuel k : nat) (s : State) : option (result value * State) :=
  match fuel with
  | O => None
  | S fuel' =>
      let now := clock (tick s) in
      let s1 := tock s in
      if now - start <? timeout * us_per_second then
        match (interfere (others k) ;;;
               key <- own_key self ;;
               Cache_get key) s1 with
        | (Raise e, s2) => Some (Raise e, s2)
        | (Ok cached, s2) =>
            if same_text cached message then
              Some ((key <- own_key self ;;
                     Cache_clear key ;;;
                     ret (VData (ctx_message self))) s2)
            else if match cached with Some _ => true | None => false end then
              Some ((key <- own_key self ;;
                     Cache_clear key ;;;
                     ret VNone) s2)
            else poll others self message timeout start fuel' (S k) s2
        end
      else
        Some ((key <- own_key self ;;
               Cache_clear key ;;;
               ret VNone) s1)
  end.

(** [Context.wait_for_message] *)
Definition wait_for_message
    (others : nat -> gmap string (string * Z) -> gmap string (string * Z))
    (self : Context) (message : string) (timeout : Z) (fuel : nat)
    (s : State) : option (result value * State) :=
  if negb (ctx_intents self) then Some (Raise IntentsNotEnabled, s)
  else
    let start := clock (tick s) in
    poll others self message timeout start fuel 0%nat (tock s).

End Dispatch.

Arguments time clock _ /.
Arguments ret {A} a _ /.
Arguments raise {A} e _ /.
Arguments lift {A} r _ /.
Arguments bind {A B} m k _ /.
Arguments log e _ /.
Arguments call f args _ /.
Arguments reply context text _ /.

(** ** Example bots *)

Module Examples.

Definition returning (n : string) (ps : list string) : callable :=
  mkCallable n ps (fun _ => Ok VNone).

Definition raising (n : string) (ps : list string) (e : exn) : callable :=
  mkCallable n ps (fun _ => Raise e).

Definition ping : callable := returning "ping" ["ctx"; "message"].
Definition on_text : callable := returning "on_text" ["ctx"].
Definition on_console : callable := returning "on_console" ["ctx"].
Definition only_ctx : callable := returning "ready" ["ctx"].
Definition no_params : callable := returning "tick" [].

Definition alice : MessageAuthor := mkAuthor "Alice" "userA".

Definition text (t : string) : Message :=
  mkMessage (Some t) "chat1" 1 (Some alice).

(** A payload without an author, such as a notification. *)
Definition anonymous (t : string) : Message :=
  mkMessage (Some t) "chat1" 1 None.

Definition bare : Bot := mkBot "!" false ∅ CommandTable.empty.

Definition ping_bot : Bot :=
  command (mkCommand ping "ping" None None [] 0) bare.

(** [ping] again, with the alias [p] and a cooldown of five seconds. *)
Definition slow_ping : Command :=
  mkCommand ping "ping" (Some "Answers.") None ["p"] 5.

Definition slow_bot : Bot := command slow_ping bare.

(** A bot whose author registered a command of their own named [help]. *)
Definition my_help : callable := returning "my_help" ["ctx"].
Definition help_command : Command := mkCommand my_help "help" None None [] 0.
Definition help_bot : Bot := command help_command bare.

(** [ping_bot] with a generic text-message handler. *)
Definition chatty_bot : Bot := on_text_message on_text ping_bot.

(** [chatty_bot] with the console's text-message handler as well. *)
Definition console_bot : Bot := _console_on_text_message on_console chatty_bot.

(** A bot whose image handler raises, with an error handler registered. *)
Definition boom : callable := raising "boom" ["ctx"] (HandlerError "boom").
Definition on_err : callable := returning "on_error" ["ctx"].
Definition fragile_bot : Bot := on_error on_err (register "image_message" boom bare).

Definition fresh : State := mkState 0 ∅ ∅ [].

(** A clock that advances a tenth of a second per reading. *)
Definition tenths_clock (k : nat) : Z := Z.of_nat k * 100000.

(** The other threads are idle. *)
Definition idle (k : nat) (m : gmap string (string * Z))
  : gmap string (string * Z) := m.

(** Before the poll number [at], the dispatcher records [said] for
    [alice] in [chat1], as [_add_cache] stores it. *)
Definition answer (at_poll : nat) (said : string) (k : nat)
    (m : gmap string (string * Z)) : gmap string (string * Z) :=
  if Nat.eqb k at_poll
  then <[cache_key "chat1" "userA" := (said, 100000000)]> m
  else m.

(** Before the poll number [at_poll], the receiving thread, whose clock
    readings are [clock_d], records [said] for [alice] in [chat1] with
    [_add_cache]. *)
Definition records (clock_d : nat -> Z) (at_poll : nat) (said : string)
    (k : nat) (m : gmap string (string * Z)) : gmap string (string * Z) :=
  if Nat.eqb k at_poll
  then wait_for (snd (_add_cache clock_d "chat1" "userA" said
                        (mkState 0 ∅ m [])))
  else m.

Definition carol : MessageAuthor := mkAuthor "Carol" "userC".

(** [carol] joins [chat3]; the handler of the event waits for her. *)
Definition joined : Message := mkMessage (Some "joined") "chat3" 1 (Some carol).

(** A cache holding unread replies of two users. *)
Definition two_waiting : State :=
  mkState 0 ∅
    {[ cache_key "chat1" "userA" := ("hi", 90000000);
       cache_key "chat2" "userB" := ("$verify", 90000000) ]}
    [].

(** A clock that advances one second per reading. *)
Definition seconds_clock (k : nat) : Z := Z.of_nat k * us_per_second.

End Examples.

(** The resolver as the specification words it: a value chosen by the
    declared name from the fixed vocabulary, [None] for any other name. *)
Module Spec.

Definition effective_text (context : Context) (override : value) : value :=
  match override with
  | VStr s => VStr s
  | _ => match content (ctx_message context) with
         | Some c => VStr c
         | None => VNone
         end
  end.

Definition resolve_by_name (context : Context) (a : MessageAuthor)
    (override : value) (p : string) : value :=
  if String.eqb p "ctx" then VCtx context
  else if String.eqb p "member" then VMember a
  else if String.eqb p "message" then effective_text context override
  else if String.eqb p "username" then VStr (username a)
  else if String.eqb p "userId" then VStr (userId a)
  else VNone.

End Spec.

(** ** Vocabulary of the statements *)

(** [text] is the prefix, then [token], then either nothing ([rest] empty)
    or one space and [rest]; [token] holds no space, and [token] and
    [rest] are pieces of the text cut between two code points. *)
Definition invokes (prefix token rest text : string) : Prop :=
  PyStr.spaceless token = true
  /\ PyStr.aligned token = true
  /\ PyStr.aligned rest = true
  /\ ((text = prefix +:+ token /\ rest = "")
      \/ text = prefix +:+ token +:+ " " +:+ rest).

(** The canonical name the router resolves a token to. *)
Definition canonical (bot : Bot) (token : string) : string :=
  default token (by_alias (_commands bot) !! token).

(** The arguments the router hands to a command taking [rest] as the
    message text. *)
Definition command_args (context : Context) (a : MessageAuthor)
    (rest : string) (c : Command) : list value :=
  map (Spec.resolve_by_name context a (VStr rest)) (parameters (func c)).

(** What the router does with a message that invokes the command [c]
    under [token], for the author [a], from the state [s]: the three ways
    through the cooldown check, each with the result returned and the state
    left behind. *)
Inductive routed_outcome (clock : nat -> Z) (bot : Bot) (context : Context)
    (token rest : string) (c : Command) (a : MessageAuthor) (s : State)
  : result value * State -> Prop :=
| Invoked :
    cooldown c <= 0 ->
    routed_outcome clock bot context token rest c a s
      (run (func c) (command_args context a rest c),
       mkState (tick s) (cooldowns s) (wait_for s)
         (trace s ++ [Called (func c) (command_args context a rest c)]))
| Refreshed :
    0 < cooldown c ->
    CommandTable.fetch_cooldown (cooldowns s) (canonical bot token) (userId a)
      <= clock (tick s) ->
    routed_outcome clock bot context token rest c a s
      (run (func c) (command_args context a rest c),
       mkState (S (S (tick s)))
         (<[(canonical bot token, userId a) :=
              clock (S (tick s)) + cooldown c * us_per_second]> (cooldowns s))
         (wait_for s)
         (trace s ++
          [CooldownSet (canonical bot token) (userId a)
             (clock (S (tick s)) + cooldown c * us_per_second);
           Called (func c) (command_args context a rest c)]))
| Blocked :
    0 < cooldown c ->
    clock (tick s)
      < CommandTable.fetch_cooldown (cooldowns s) (canonical bot token)
          (userId a) ->
    routed_outcome clock bot context token rest c a s
      (Ok VNone,
       mkState (S (S (tick s))) (cooldowns s) (wait_for s)
         (trace s ++
          [Replied
             (cooldown_text
                (Z.quot
                   (CommandTable.fetch_cooldown (cooldowns s)
                      (canonical bot token) (userId a)
                    - clock (S (tick s)))
                   us_per_second))])).

(** *** Orderly runs

    A handler call in a trace is [calm] when it returned.  A trace
    extension is [orderly] for a run when every call in it returned, or
    when its last effect is a call that raised, every call before it
    returned and the run raised that very exception.  A computation is
    [tidy] when each of its runs extends the trace in an orderly way. *)
Definition calm (e : effect) : Prop :=
  match e with
  | Called f args => forall x, run f args <> Raise x
  | _ => True
  end.

Definition raised {A} (r : result A) : option exn :=
  match r with
  | Ok _ => None
  | Raise e => Some e
  end.

Definition orderly (x : option exn) (ext : list effect) : Prop :=
  Forall calm ext
  \/ exists (pre : list effect) f args e,
       ext = pre ++ [Called f args] /\ Forall calm pre
       /\ run f args = Raise e /\ x = Some e.

Definition tidy {A} (m : M A) : Prop :=
  forall s, exists ext,
    trace (snd (m s)) = trace s ++ ext /\ orderly (raised (fst (m s))) ext.

(** *** The polls of a wait

    The waiter does not write to the cache before it leaves the loop, so
    what its polls find is decided by the cache it started from and by the
    other threads.  [cache_after others m k] is the cache once the other
    threads have made the writes that precede the polls [0], ..., [k - 1]
    of a wait that started from the cache [m]. *)
Fixpoint cache_after
    (others : nat -> gmap string (string * Z) -> gmap string (string * Z))
    (m : gmap string (string * Z)) (k : nat) : gmap string (string * Z) :=
  match k with
  | O => m
  | S k' => others k' (cache_after others m k')
  end.

(** The state in which turn [k] of the loop starts when the polls before it
    found nothing, turn 0 starting in [s]: two clock readings and one
    [get] per turn. *)
Definition unanswered_state
    (others : nat -> gmap string (string * Z) -> gmap string (string * Z))
    (key : string) (k : nat) (s : State) : State :=
  mkState (tick s + 2 * k) (cooldowns s) (cache_after others (wait_for s) k)
    (trace s ++ repeat (CacheGet key None) k).

(** The state after [cache.clear(key)]. *)
Definition cleared (s : State) : State :=
  mkState (tick s) (cooldowns s) ∅ (trace s ++ [CacheClear]).

(** The state after a poll that found [found], the other threads having
    done [f] to the cache since the poll before. *)
Definition polled (f : gmap string (string * Z) -> gmap string (string * Z))
    (key : string) (found : option string) (s : State) : State :=
  mkState (S (S (tick s))) (cooldowns s) (f (wait_for s))
    (trace s ++ [CacheGet key found]).

(** ** Further operations of the event handler *)

(** [EventHandler.emit]: the handler is called on the raw arguments; the
    function itself returns [None]. *)
Definition emit (bot : Bot) (event : string) (args : list value) : M value :=
  match _events bot !! event with
  | Some handler => call handler args ;;; ret VNone
  | None => ret VNone
  end.

(** The [wrapper] that [on_delete_message] registers in place of the
    decorated function: it resolves the function's parameters from the
    context by itself (no message override), calls the function and
    returns [None]. *)
Definition delete_wrapper (func : callable) : callable :=
  mkCallable "wrapper" ["ctx"]
    (fun args =>
       match args with
       | [VCtx ctx] =>
           match _set_parameters ctx func VNone with
           | Ok resolved =>
               match run func resolved with
               | Ok _ => Ok VNone
               | Raise e => Raise e
               end
           | Raise e => Raise e
           end
       | [_] => Raise AttributeError
       | _ => Raise TypeError
       end).

(** [EventHandler.on_delete_message] *)
Definition on_delete_message (func : callable) : Bot -> Bot :=
  register "delete_message" (delete_wrapper func).

(** A computation [keeps] a component of the state when no run of it
    changes that component. *)
Definition keeps {A X} (component : State -> X) (m : M A) : Prop :=
  forall s, component (snd (m s)) = component s.

(** The effects that are operations on the reply-wait cache. *)
Definition on_cache (e : effect) : bool :=
  match e with
  | CacheGet _ _ | CacheClear | CacheAdd _ _ _ => true
  | _ => false
  end.

(** A computation [emits] only effects with the property [P] when
    whatever a run of it appends to the trace has it. *)
Definition emits {A} (P : effect -> Prop) (m : M A) : Prop :=
  forall s, exists ext, trace (snd (m s)) = trace s ++ ext /\ Forall P ext.

(** What [_handle_event] does with a text message once the recording step
    is behind it: the router, then the direct dispatch of
    ["text_message"], the two under [suppress(KeyError)]. *)
Definition route_and_dispatch (clock : nat -> Z) (text_first : bool)
    (bot : Bot) (data : Message) : M value :=
  suppress_KeyError (
    _handle_command clock text_first bot data (mkContext (intents bot) data) ;;;
    match _events bot !! "text_message" with
    | Some handler =>
        _handle_all_events bot "text_message" data
          (mkContext (intents bot) data)
    | None => ret VNone
    end).

(** What the recording step of a dispatch of the text message [reply] by
    the receiving thread does to a cache [m]; that thread has its own
    clock readings [clock_d] and its own state [sd]. *)
Definition recorded (clock_d : nat -> Z) (reply : Message)
    (user text : string) (sd : State) (m : gmap string (string * Z))
  : gmap string (string * Z) :=
  wait_for (snd (_add_cache clock_d (chatId reply) user text
                   (mkState (tick sd) (cooldowns sd) m (trace sd)))).

(** A text that the router does not take for a command invocation: its
    token names no command, or it does not begin with the prefix. *)
Definition unmatched (bot : Bot) (text : string) : Prop :=
  command_exists bot
    (PyStr.first_token (PyStr.drop (PyStr.len (command_prefix bot)) text))
  = false
  \/ PyStr.take (PyStr.len (command_prefix bot)) text
     <> command_prefix bot.

(** ** Outbound helpers of the context *)

Module PyText.

(** [s.startswith(p)] *)
Fixpoint startswith (p s : string) : bool :=
  match p, s with
  | EmptyString, _ => true
  | String a p', String b s' => Ascii.eqb a b && startswith p' s'
  | String _ _, EmptyString => false
  end.

(** [s.replace(old, new)] for a non-empty [old]: every occurrence of
    [old], found from the left and not overlapping an earlier one, is
    replaced.  [skip] counts the bytes of a found occurrence that are
    still to be passed over. *)
Fixpoint replace_from (old new : string) (skip : nat) (s : string) : string :=
  match s with
  | EmptyString => EmptyString
  | String c s' =>
      match skip with
      | S k => replace_from old new k s'
      | O =>
          if startswith old s
          then new +:+ replace_from old new (String.length old - 1) s'
          else String c (replace_from old new 0 s')
      end
  end.

Definition replace (old new s : string) : string := replace_from old new 0 s.

(** [old in s] *)
Fixpoint occurs (old s : string) : bool :=
  startswith old s
  || match s with
     | EmptyString => false
     | String _ s' => occurs old s'
     end.

End PyText.

(** The keyword arguments of the one [__send_message__] call of
    [Context.send_sticker]. *)
Record sticker_kwargs := mkSticker {
  sticker_type : Z;
  stickerId : string;
  mediaValue : string
}.

(** [Context.send_sticker], up to the request it hands to
    [__send_message__]. *)
Definition send_sticker (sticker_id : string) : sticker_kwargs :=
  let sticker_id :=
    if PyText.startswith "ndcsticker://" sticker_id
    then PyText.replace "ndcsticker://" "" sticker_id
    else sticker_id in
  mkSticker 3 sticker_id ("ndcsticker://" +:+ sticker_id).

(** *** Media

    [__handle_media__] reads the media from the network or from a file.
    What the world answers is a parameter: [http_get url] is the response
    of [requests.get(url)] when neither the request nor
    [raise_for_status()] raised, [read_file path] the bytes of
    [open(path, "rb").read()] when that did not raise; [b64encode] and
    [upload] stand for [encode_media] and [upload_media]. *)
Record Response := mkResponse {
  resp_content : string;
  content_type_header : option string
}.

Record MediaWorld := mkMediaWorld {
  http_get : string -> option Response;
  read_file : string -> option string;
  b64encode : string -> string;
  upload : string -> string -> string
}.

Inductive media_error :=
| InvalidImage
| NoneHasNoStartswith.

Inductive media_payload :=
| RawBytes (b : string)
| Text (t : string).

Inductive media_result :=
| Media (m : media_payload)
| MediaRaise (e : media_error).

(** [Context.__handle_media__] *)
Definition __handle_media__ (w : MediaWorld) (media content_type : string)
    (media_value : bool) : media_result :=
  let fetched :=
    if PyText.startswith "http" media then
      match http_get w media with
      | Some response => Some (Some response, resp_content response)
      | None => None
      end
    else
      match read_file w media with
      | Some bytes => Some (None, bytes)
      | None => None
      end in
  match fetched with
  | None => MediaRaise InvalidImage
  | Some (response, media) =>
      if String.eqb content_type "audio/aac" then
        Media (Text (b64encode w media))
      else if media_value then
        Media (Text (upload w media content_type))
      else
        match response with
        | Some r =>
            match content_type_header r with
            | None => MediaRaise NoneHasNoStartswith
            | Some header =>
                if negb (PyText.startswith "image" header)
                then MediaRaise InvalidImage
                else Media (RawBytes media)
            end
        | None => Media (RawBytes media)
        end
  end.

(** *** Message preparation *)

Definition is_None (v : value) : bool :=
  match v with VNone => true | _ => false end.

(** [kwargs.get(k)] *)
Definition kwargs_get (kwargs : gmap string value) (k : string) : value :=
  default VNone (kwargs !! k).

(** [Context.__parse_kwargs__]; [uid] is [self.userId]. *)
Definition __parse_kwargs__ (uid : value) (kwargs : gmap string value)
  : gmap string value :=
  {[ "content" := kwargs_get kwargs "content";
     "type" := kwargs_get kwargs "type";
     "mediaType" := kwargs_get kwargs "mediaType";
     "mediaValue" := kwargs_get kwargs "mediaValue";
     "mediaUploadValue" := kwargs_get kwargs "mediaUploadValue";
     "stickerId" := kwargs_get kwargs "stickerId";
     "attachedObject" := kwargs_get kwargs "attachedObject";
     "uid" := uid ]}.

(** [Context.__purge__] *)
Definition __purge__ (data : gmap string value) : gmap string value :=
  filter (fun kv => is_None (snd kv) = false) data.

(** [Context.__prepare_message__] *)
Definition __prepare_message__ (uid : value) (kwargs : gmap string value)
  : gmap string value :=
  __purge__ (__parse_kwargs__ uid kwargs).

(** The keys a caller can set through [__prepare_message__]. *)
Definition message_keys : list string :=
  ["content"; "type"; "mediaType"; "mediaValue"; "mediaUploadValue";
   "stickerId"; "attachedObject"].

(** * Properties *)

(** ** Facts about the string operations *)

(** Lengths and slices count code points, not bytes. *)
Example len_counts_code_points :
  PyStr.len "é!" = 2%nat /\ String.length "é!" = 3%nat.
Proof. split; reflexivity. Qed.

Example slices_cut_between_code_points :
  PyStr.drop 1 "éping" = "ping" /\ PyStr.take 1 "éping" = "é"
  /\ PyStr.drop 2 "éping" = "ing" /\ PyStr.take 2 "日本語" = "日本".
Proof. repeat split. Qed.

Lemma String_app_cons (c : ascii) (p x : string) :
  String c p +:+ x = String c (p +:+ x).
Proof. reflexivity. Qed.

Lemma app_empty (p : string) : p +:+ "" = p.
Proof.
  induction p as [|c p IH]; [reflexivity | exact (f_equal (String c) IH)].
Qed.

Lemma next_aligned (s : string) : PyStr.aligned s = true -> PyStr.next s = s.
Proof.
  destruct s as [|c s]; [reflexivity|]. cbn [PyStr.aligned PyStr.next].
  now destruct (PyStr.continuation c).
Qed.

Lemma continued_aligned (s : string) :
  PyStr.aligned s = true -> PyStr.continued s = "".
Proof.
  destruct s as [|c s]; [reflexivity|]. cbn [PyStr.aligned PyStr.continued].
  now destruct (PyStr.continuation c).
Qed.

Lemma aligned_app (t x : string) :
  PyStr.aligned t = true -> PyStr.aligned x = true ->
  PyStr.aligned (t +:+ x) = true.
Proof. now destruct t. Qed.

Lemma drop_empty (n : nat) : PyStr.drop n "" = "".
Proof. now destruct n. Qed.

Lemma drop_scalars (p s : string) :
  PyStr.aligned s = true ->
  PyStr.drop (PyStr.scalars p) (PyStr.next (p +:+ s)) = s.
Proof.
  intros Hs. induction p as [|c p IH].
  - exact (next_aligned s Hs).
  - rewrite String_app_cons. cbn [PyStr.scalars PyStr.next].
    destruct (PyStr.continuation c); exact IH.
Qed.

Lemma take_scalars (p s : string) :
  PyStr.aligned s = true ->
  PyStr.continued (p +:+ s)
  +:+ PyStr.take (PyStr.scalars p) (PyStr.next (p +:+ s)) = p.
Proof.
  intros Hs. induction p as [|c p IH].
  - change ("" +:+ s) with s. now rewrite (continued_aligned s Hs).
  - rewrite String_app_cons. cbn [PyStr.scalars PyStr.next PyStr.continued].
    destruct (PyStr.continuation c).
    + rewrite String_app_cons. exact (f_equal (String c) IH).
    + exact (f_equal (String c) IH).
Qed.

(** Cutting [p +:+ s] after as many code points as [p] has gives back
    [p] and [s], when [s] begins at a code point. *)
Lemma drop_app (p s : string) :
  PyStr.aligned s = true -> PyStr.drop (PyStr.len p) (p +:+ s) = s.
Proof.
  intros Hs. destruct p as [|c p]; [reflexivity|].
  exact (drop_scalars p s Hs).
Qed.

Lemma take_app (p s : string) :
  PyStr.aligned s = true -> PyStr.take (PyStr.len p) (p +:+ s) = p.
Proof.
  intros Hs. destruct p as [|c p]; [reflexivity|].
  exact (f_equal (String c) (take_scalars p s Hs)).
Qed.

Lemma drop_all (p : string) : PyStr.drop (PyStr.len p) p = "".
Proof. rewrite <- (app_empty p) at 2. now apply drop_app. Qed.

Lemma drop_drop (n m : nat) (s : string) :
  PyStr.drop (n + m) s = PyStr.drop m (PyStr.drop n s).
Proof.
  revert s; induction n as [|n IH]; intros s; [reflexivity|].
  destruct s as [|a s]; cbn [Nat.add PyStr.drop];
    [now rewrite drop_empty | apply IH].
Qed.

Lemma first_token_spaceless (t : string) :
  PyStr.spaceless t = true -> PyStr.first_token t = t.
Proof.
  induction t as [|a t IH]; simpl; [reflexivity|].
  destruct (Ascii.eqb a " "); simpl; [discriminate|].
  intros H; now rewrite IH.
Qed.

Lemma first_token_before_space (t r : string) :
  PyStr.spaceless t = true -> PyStr.first_token (t +:+ " " +:+ r) = t.
Proof.
  induction t as [|a t IH]; [reflexivity|].
  change (PyStr.first_token (String a t +:+ " " +:+ r))
    with (if Ascii.eqb a " " then "" else
            String a (PyStr.first_token (t +:+ " " +:+ r))).
  simpl. destruct (Ascii.eqb a " "); simpl; [discriminate|].
  intros H; now rewrite IH.
Qed.

(** ** Parameter resolution *)

Section Resolver.

Variables (context : Context) (member : MessageAuthor).
Variables (message username userId : value).

Let table := potential_parameters context member message username userId.

Lemma potential_ctx : table !! "ctx" = Some (VCtx context).
Proof. reflexivity. Qed.

Lemma potential_member : table !! "member" = Some (VMember member).
Proof. reflexivity. Qed.

Lemma potential_message : table !! "message" = Some message.
Proof. reflexivity. Qed.

Lemma potential_username : table !! "username" = Some username.
Proof. reflexivity. Qed.

Lemma potential_userId : table !! "userId" = Some userId.
Proof. reflexivity. Qed.

Lemma potential_unknown (p : string) :
  p ∉ ["ctx"; "member"; "message"; "username"; "userId"] ->
  table !! p = None.
Proof.
  intros H. unfold table, potential_parameters.
  assert (Hne : forall k, k ∈ ["ctx"; "member"; "message"; "username"; "userId"]
                         -> k <> p) by (intros k Hk ->; exact (H Hk)).
  rewrite !lookup_insert_ne by (apply Hne; set_solver).
  apply lookup_singleton_ne, Hne; set_solver.
Qed.

End Resolver.

(** With an author, the source's resolver refines the specification's: one
    argument per declared parameter, in declaration order, chosen by
    name. *)
Lemma set_parameters_with_author (context : Context) (f : callable)
    (override : value) (a : MessageAuthor) :
  Context_author context = Some a ->
  _set_parameters context f override
  = Ok (map (Spec.resolve_by_name context a override) (parameters f)).
Proof.
  intros Ha. unfold _set_parameters. rewrite Ha. f_equal.
  apply map_ext. intros p. unfold Spec.resolve_by_name.
  destruct (String.eqb_spec p "ctx") as [->|N1]; [reflexivity|].
  destruct (String.eqb_spec p "member") as [->|N2]; [reflexivity|].
  destruct (String.eqb_spec p "message") as [->|N3];
    [destruct override; reflexivity|].
  destruct (String.eqb_spec p "username") as [->|N4]; [reflexivity|].
  destruct (String.eqb_spec p "userId") as [->|N5]; [reflexivity|].
  rewrite potential_unknown; [reflexivity|].
  rewrite !elem_of_cons, elem_of_nil. tauto.
Qed.

Lemma set_parameters_message_slot (context : Context) (f : callable)
    (text : string) (a : MessageAuthor) (args : list value) (i : nat) :
  Context_author context = Some a ->
  _set_parameters context f (VStr text) = Ok args ->
  parameters f !! i = Some "message" ->
  args !! i = Some (VStr text).
Proof.
  intros Ha Hargs Hi.
  rewrite (set_parameters_with_author _ _ _ _ Ha) in Hargs.
  injection Hargs as <-. now rewrite list_lookup_fmap, Hi.
Qed.

(** C10.  [_set_parameters] builds the member view from the author before
    it looks at the handler's signature: for a context whose message has
    no author it raises [AttributeError], whatever parameters the handler
    declares (none at all included) and whatever override is passed; no
    list of arguments with [None] entries is returned. *)
Theorem set_parameters_without_author (context : Context) (f : callable)
    (override : value) :
  Context_author context = None ->
  _set_parameters context f override = Raise AttributeError.
Proof. intros Ha. unfold _set_parameters. now rewrite Ha. Qed.

Lemma set_parameters_without_author_witness :
  Context_author (mkContext false (Examples.anonymous "joined")) = None
  /\ _set_parameters (mkContext false (Examples.anonymous "joined"))
       Examples.no_params VNone = Raise AttributeError.
Proof.
  split; [reflexivity|].
  apply (set_parameters_without_author
           (mkContext false (Examples.anonymous "joined"))
           Examples.no_params VNone).
  reflexivity.
Defined.

(** C7.  At a context without an author the resolver does not return one
    argument per declared parameter: a handler declaring only [ctx] gets
    no argument list, the call raises [AttributeError].  The two guarded
    reads of the author next to it ([username], [userId]) fall back to
    [None] in that very case. *)
Theorem set_parameters_ctx_only_raises :
  _set_parameters (mkContext false (Examples.anonymous "joined"))
    Examples.only_ctx VNone = Raise AttributeError
  /\ parameters Examples.only_ctx = ["ctx"].
Proof. split; reflexivity. Qed.

(** C8.  With intents disabled [wait_for_message] raises
    [IntentsNotEnabled] at once: whatever the fuel, the state is returned as
    it was, so no clock reading was taken, the cache was neither read nor
    cleared and nothing was appended to the trace. *)
Theorem wait_for_message_needs_intents (clock : nat -> Z)
    (others : nat -> gmap string (string * Z) -> gmap string (string * Z))
    (self : Context) (message : string) (timeout : Z) (fuel : nat)
    (s : State) :
  ctx_intents self = false ->
  wait_for_message clock others self message timeout fuel s
  = Some (Raise IntentsNotEnabled, s).
Proof. intros Hi. unfold wait_for_message. now rewrite Hi. Qed.

Lemma wait_for_message_needs_intents_witness :
  ctx_intents (mkContext false (Examples.text "hello")) = false
  /\ wait_for_message Examples.seconds_clock (fun _ m => m)
       (mkContext false (Examples.text "hello")) "$verify" 2 0
       Examples.fresh
     = Some (Raise IntentsNotEnabled, Examples.fresh).
Proof.
  split; [reflexivity|].
  apply (wait_for_message_needs_intents Examples.seconds_clock (fun _ m => m)
           (mkContext false (Examples.text "hello")) "$verify" 2 0%nat
           Examples.fresh).
  reflexivity.
Defined.

(** ** The command router *)

Lemma invokes_parse (prefix token rest text : string) :
  invokes prefix token rest text ->
  PyStr.first_token (PyStr.drop (PyStr.len prefix) text) = token
  /\ PyStr.take (PyStr.len prefix) text = prefix
  /\ PyStr.drop (PyStr.len prefix + PyStr.len token + 1) text = rest.
Proof.
  intros (Hsp & Htoken & Hrest & [[-> ->] | ->]).
  - rewrite 2!drop_drop, (drop_app prefix token Htoken).
    rewrite (take_app prefix token Htoken).
    rewrite (first_token_spaceless _ Hsp), drop_all. now repeat split.
  - assert (Htail : PyStr.aligned (token +:+ " " +:+ rest) = true)
      by now apply aligned_app.
    rewrite 2!drop_drop, (drop_app prefix _ Htail).
    rewrite (take_app prefix _ Htail).
    rewrite (first_token_before_space _ _ Hsp).
    rewrite (drop_app token (" " +:+ rest) eq_refl).
    repeat split. exact (next_aligned rest Hrest).
Qed.

Section CooldownCheck.

Variables (clock : nat -> Z) (bot : Bot).
Variables (command_name : string) (data : Message) (context : Context).
Variables (c : Command) (a : MessageAuthor).
Hypothesis Hfetch :
  CommandTable.fetch_command (_commands bot) command_name = Ok c.
Hypothesis Hauthor : author data = Some a.

Let expiry (s : State) : Z :=
  CommandTable.fetch_cooldown (cooldowns s) command_name (userId a).

Lemma check_cooldown_free (s : State) :
  cooldown c <= 0 ->
  _check_cooldown clock bot command_name data context s = (Ok 200, s).
Proof.
  intros Hc. unfold _check_cooldown, fetch_command. simpl. rewrite Hfetch.
  destruct (Z.ltb_spec 0 (cooldown c)); [lia | reflexivity].
Qed.

Lemma check_cooldown_blocked (s : State) :
  0 < cooldown c ->
  clock (tick s) < expiry s ->
  _check_cooldown clock bot command_name data context s
  = (Ok 403,
     mkState (S (S (tick s))) (cooldowns s) (wait_for s)
       (trace s ++
        [Replied (cooldown_text
                    (Z.quot (expiry s - clock (S (tick s))) us_per_second))])).
Proof.
  intros Hc Hb. unfold _check_cooldown, fetch_command, author_userId.
  simpl. rewrite Hfetch, Hauthor.
  destruct (Z.ltb_spec 0 (cooldown c)); [|lia]. simpl.
  fold (expiry s).
  destruct (Z.ltb_spec (clock (tick s)) (expiry s)); [|lia].
  reflexivity.
Qed.

Lemma check_cooldown_refreshed (s : State) :
  0 < cooldown c ->
  expiry s <= clock (tick s) ->
  _check_cooldown clock bot command_name data context s
  = (Ok 200,
     mkState (S (S (tick s)))
       (<[(command_name, userId a) :=
            clock (S (tick s)) + cooldown c * us_per_second]> (cooldowns s))
       (wait_for s)
       (trace s ++
        [CooldownSet command_name (userId a)
           (clock (S (tick s)) + cooldown c * us_per_second)])).
Proof.
  intros Hc Hb. unfold _check_cooldown, fetch_command, author_userId.
  simpl. rewrite Hfetch, Hauthor.
  destruct (Z.ltb_spec 0 (cooldown c)); [|lia]. simpl.
  fold (expiry s).
  destruct (Z.ltb_spec (clock (tick s)) (expiry s)); [lia|].
  reflexivity.
Qed.

End CooldownCheck.

Section Routed.

Variables (clock : nat -> Z) (text_first : bool) (bot : Bot).
Variables (data : Message) (context : Context).
Variables (token rest text : string).
Hypothesis Hcontent : content data = Some text.
Hypothesis Hinv : invokes (command_prefix bot) token rest text.
Hypothesis Hexists : command_exists bot token = true.

(** A message that invokes a known command reaches the cooldown check and,
    past it, the command's handler, with [rest] as the message text. *)
Lemma handle_command_routed (s : State) :
  _handle_command clock text_first bot data context s
  = (response <- _check_cooldown clock bot (canonical bot token) data context ;;
     if negb (response =? 403) then
       c <- fetch_command bot (canonical bot token) ;;
       args <- lift (_set_parameters context (func c) (VStr rest)) ;;
       call (func c) args
     else ret VNone) s.
Proof.
  destruct (invokes_parse _ _ _ _ Hinv) as (Htok & Htake & Hrest).
  unfold _handle_command, subscript_content. rewrite Hcontent.
  cbn [bind ret]. rewrite Htok, Htake, Hexists, String.eqb_refl.
  cbn [negb orb]. rewrite Hrest. reflexivity.
Qed.

Variables (c : Command) (a : MessageAuthor).
Hypothesis Hfetch :
  CommandTable.fetch_command (_commands bot) (canonical bot token) = Ok c.
Hypothesis Hauthor : author data = Some a.
Hypothesis Hctx : ctx_message context = data.

Let args := command_args context a rest c.
Let expiry (s : State) : Z :=
  CommandTable.fetch_cooldown (cooldowns s) (canonical bot token) (userId a).

Lemma resolved_args :
  _set_parameters context (func c) (VStr rest) = Ok args.
Proof.
  apply set_parameters_with_author. unfold Context_author.
  now rewrite Hctx.
Qed.

Lemma routed_free (s : State) :
  cooldown c <= 0 ->
  _handle_command clock text_first bot data context s
  = (run (func c) args,
     mkState (tick s) (cooldowns s) (wait_for s)
       (trace s ++ [Called (func c) args])).
Proof.
  intros Hc. rewrite handle_command_routed. cbn [bind].
  rewrite (check_cooldown_free clock bot _ data context c Hfetch s Hc).
  cbn [negb Z.eqb Pos.eqb]. unfold fetch_command. cbn [lift bind].
  rewrite Hfetch, resolved_args. cbn [call bind log lift].
  now destruct (run (func c) args).
Qed.

Lemma routed_blocked (s : State) :
  0 < cooldown c ->
  clock (tick s) < expiry s ->
  _handle_command clock text_first bot data context s
  = (Ok VNone,
     mkState (S (S (tick s))) (cooldowns s) (wait_for s)
       (trace s ++
        [Replied (cooldown_text
                    (Z.quot (expiry s - clock (S (tick s))) us_per_second))])).
Proof.
  intros Hc Hb. rewrite handle_command_routed. cbn [bind].
  now rewrite (check_cooldown_blocked clock bot _ data context c a
                 Hfetch Hauthor s Hc Hb).
Qed.

Lemma routed_refreshed (s : State) :
  0 < cooldown c ->
  expiry s <= clock (tick s) ->
  _handle_command clock text_first bot data context s
  = (run (func c) args,
     mkState (S (S (tick s)))
       (<[(canonical bot token, userId a) :=
            clock (S (tick s)) + cooldown c * us_per_second]> (cooldowns s))
       (wait_for s)
       (trace s ++
        [CooldownSet (canonical bot token) (userId a)
           (clock (S (tick s)) + cooldown c * us_per_second);
         Called (func c) args])).
Proof.
  intros Hc Hb. rewrite handle_command_routed. cbn [bind].
  rewrite (check_cooldown_refreshed clock bot _ data context c a
             Hfetch Hauthor s Hc Hb).
  cbn [negb Z.eqb Pos.eqb]. unfold fetch_command. cbn [lift bind].
  rewrite Hfetch, resolved_args. cbn [call bind log lift trace tick cooldowns wait_for].
  rewrite <- app_assoc. now destruct (run (func c) args).
Qed.

End Routed.

Lemma routed_outcomes (clock : nat -> Z) (text_first : bool) (bot : Bot)
    (data : Message) (context : Context) (token rest text : string)
    (c : Command) (a : MessageAuthor) (s : State) :
  content data = Some text ->
  invokes (command_prefix bot) token rest text ->
  command_exists bot token = true ->
  CommandTable.fetch_command (_commands bot) (canonical bot token) = Ok c ->
  author data = Some a ->
  ctx_message context = data ->
  routed_outcome clock bot context token rest c a s
    (_handle_command clock text_first bot data context s).
Proof.
  intros Hcontent Hinv Hex Hfetch Ha Hctx.
  destruct (Z_le_gt_dec (cooldown c) 0) as [Hfree|Hpos].
  - erewrite routed_free by eassumption. now constructor.
  - destruct (Z_lt_le_dec (clock (tick s))
                (CommandTable.fetch_cooldown (cooldowns s)
                   (canonical bot token) (userId a))) as [Hb|Hb].
    + erewrite routed_blocked by (eassumption || lia). constructor; lia.
    + erewrite routed_refreshed by (eassumption || lia). constructor; lia.
Qed.

Lemma handle_command_help (clock : nat -> Z) (text_first : bool) (bot : Bot)
    (data : Message) (context : Context) (s : State) :
  content data = Some (command_prefix bot +:+ "help") ->
  command_exists bot "help" = false ->
  _handle_command clock text_first bot data context s
  = (Ok (VCMessage (CommandTable.__help__ (_commands bot))),
     mkState (tick s) (cooldowns s) (wait_for s)
       (trace s ++ [Replied (CommandTable.__help__ (_commands bot))])).
Proof.
  intros Hcontent Hex.
  unfold _handle_command, subscript_content. rewrite Hcontent.
  cbn [bind ret]. rewrite (drop_app _ "help" eq_refl).
  change (PyStr.first_token "help") with "help".
  rewrite Hex, !String.eqb_refl. reflexivity.
Qed.

(** C6, as the code has it.  The token is cut at the first space
    character, as [split(" ")] does, not at any whitespace.  When a
    message is the prefix, a space-free token that names a registered
    command (directly or through an alias), and then either nothing or one
    space and a remainder, every [message] parameter of the command's
    handler is bound to that remainder (the empty string when there is
    none), and the router's run is one of the three routed outcomes: the
    handler is called with these arguments unless the cooldown check
    blocks the invocation. *)
Theorem command_message_is_remainder (clock : nat -> Z) (text_first : bool)
    (bot : Bot) (data : Message) (context : Context)
    (token rest text : string) (c : Command) (a : MessageAuthor) (s : State) :
  content data = Some text ->
  invokes (command_prefix bot) token rest text ->
  command_exists bot token = true ->
  CommandTable.fetch_command (_commands bot) (canonical bot token) = Ok c ->
  author data = Some a ->
  ctx_message context = data ->
  (forall i : nat,
      parameters (func c) !! i = Some "message" ->
      command_args context a rest c !! i = Some (VStr rest))
  /\ routed_outcome clock bot context token rest c a s
       (_handle_command clock text_first bot data context s).
Proof.
  intros Hcontent Hinv Hex Hfetch Ha Hctx. split.
  - intros i Hi. unfold command_args. now rewrite list_lookup_fmap, Hi.
  - eapply routed_outcomes; eassumption.
Qed.

Lemma command_message_is_remainder_witness :
  (forall i : nat,
      parameters Examples.ping !! i = Some "message" ->
      command_args (mkContext false (Examples.text "!ping extra text"))
        Examples.alice "extra text"
        (mkCommand Examples.ping "ping" None None [] 0) !! i
      = Some (VStr "extra text"))
  /\ routed_outcome Examples.seconds_clock Examples.ping_bot
       (mkContext false (Examples.text "!ping extra text"))
       "ping" "extra text" (mkCommand Examples.ping "ping" None None [] 0)
       Examples.alice Examples.fresh
       (_handle_command Examples.seconds_clock true Examples.ping_bot
          (Examples.text "!ping extra text")
          (mkContext false (Examples.text "!ping extra text"))
          Examples.fresh).
Proof.
  apply (command_message_is_remainder Examples.seconds_clock true
           Examples.ping_bot (Examples.text "!ping extra text")
           (mkContext false (Examples.text "!ping extra text"))
           "ping" "extra text" "!ping extra text"
           (mkCommand Examples.ping "ping" None None [] 0)
           Examples.alice Examples.fresh).
  - reflexivity.
  - repeat (split; [reflexivity|]). right; reflexivity.
  - reflexivity.
  - reflexivity.
  - reflexivity.
  - reflexivity.
Defined.

(** C6 as stated fails: a tab and a line break are whitespace, but the
    router does not end the token there.  With [ping] registered under
    the prefix ["!"], the token it reads from ["!ping<TAB>extra text"] is
    ["ping<TAB>extra"], which names no command: nothing is called and no
    [message] is bound, where the same text with a space in that place
    calls [ping] with ["extra text"]. *)
Lemma tab_after_token_invokes_nothing :
  let tabbed := "!ping" +:+ String "009"%char "extra text" in
  let broken := "!ping" +:+ String "010"%char "extra text" in
  command_exists Examples.ping_bot "ping" = true
  /\ PyStr.first_token (PyStr.drop (PyStr.len "!") tabbed)
     = "ping" +:+ String "009"%char "extra"
  /\ _handle_command Examples.seconds_clock true Examples.ping_bot
       (Examples.text tabbed) (mkContext false (Examples.text tabbed))
       Examples.fresh
     = (Ok VNone, Examples.fresh)
  /\ _handle_command Examples.seconds_clock true Examples.ping_bot
       (Examples.text broken) (mkContext false (Examples.text broken))
       Examples.fresh
     = (Ok VNone, Examples.fresh)
  /\ _handle_command Examples.seconds_clock true Examples.ping_bot
       (Examples.text "!ping extra text")
       (mkContext false (Examples.text "!ping extra text")) Examples.fresh
     = (Ok VNone,
        mkState 0 ∅ ∅
          [Called Examples.ping
             [VCtx (mkContext false (Examples.text "!ping extra text"));
              VStr "extra text"]]).
Proof. repeat split. Qed.

(** The example of the specification: ["!ping extra text"] with prefix
    ["!"] calls [ping] with [message] bound to ["extra text"]. *)
Example ping_extra_text :
  _handle_command Examples.seconds_clock true Examples.ping_bot
    (Examples.text "!ping extra text")
    (mkContext false (Examples.text "!ping extra text")) Examples.fresh
  = (Ok VNone,
     mkState 0 ∅ ∅
       [Called Examples.ping
          [VCtx (mkContext false (Examples.text "!ping extra text"));
           VStr "extra text"]]).
Proof. reflexivity. Qed.

(** C2.  For a command with a positive cooldown, invoked by the user [a]:
    when the user's record has not expired at the reading taken by the
    check, the router replies ["You are on cooldown for N seconds."], [N]
    being the whole seconds (rounded towards zero) from the next reading
    to the expiry, calls no handler and leaves the cooldown table as it
    was; otherwise it first sets the user's record to the next reading
    plus the command's cooldown and then calls the handler.  The table
    changes in the second case only. *)
Theorem cooldown_blocks_or_refreshes (clock : nat -> Z) (text_first : bool)
    (bot : Bot) (data : Message) (context : Context)
    (token rest text : string) (c : Command) (a : MessageAuthor) (s : State) :
  content data = Some text ->
  invokes (command_prefix bot) token rest text ->
  command_exists bot token = true ->
  CommandTable.fetch_command (_commands bot) (canonical bot token) = Ok c ->
  author data = Some a ->
  ctx_message context = data ->
  0 < cooldown c ->
  let expiry :=
    CommandTable.fetch_cooldown (cooldowns s) (canonical bot token)
      (userId a) in
  let args := command_args context a rest c in
  (clock (tick s) < expiry ->
   let N := Z.quot (expiry - clock (S (tick s))) us_per_second in
   _handle_command clock text_first bot data context s
   = (Ok VNone,
      mkState (S (S (tick s))) (cooldowns s) (wait_for s)
        (trace s ++
         [Replied ("You are on cooldown for " +:+ pretty N +:+ " seconds.")])))
  /\ (expiry <= clock (tick s) ->
      _handle_command clock text_first bot data context s
      = (run (func c) args,
         mkState (S (S (tick s)))
           (<[(canonical bot token, userId a) :=
                clock (S (tick s)) + cooldown c * us_per_second]>
              (cooldowns s))
           (wait_for s)
           (trace s ++
            [CooldownSet (canonical bot token) (userId a)
               (clock (S (tick s)) + cooldown c * us_per_second);
             Called (func c) args]))).
Proof.
  intros Hcontent Hinv Hex Hfetch Ha Hctx Hpos expiry args. split; intros Hb.
  - intros N. exact (routed_blocked clock text_first bot data context token
                       rest text Hcontent Hinv Hex c a Hfetch Ha s Hpos Hb).
  - eapply routed_refreshed; eassumption.
Qed.

(** A first invocation through the alias [p] sets the record and calls
    the handler; a second one, two readings later, is answered with the
    seconds left and calls nothing. *)
Lemma cooldown_blocks_or_refreshes_witness :
  let once :=
    mkState 2 {[ ("ping", "userA") := 6000000 ]} ∅
      [CooldownSet "ping" "userA" 6000000;
       Called Examples.ping
         [VCtx (mkContext false (Examples.text "!p now")); VStr "now"]] in
  _handle_command Examples.seconds_clock true Examples.slow_bot
    (Examples.text "!p now")
    (mkContext false (Examples.text "!p now")) Examples.fresh
  = (Ok VNone, once)
  /\ _handle_command Examples.seconds_clock true Examples.slow_bot
       (Examples.text "!ping")
       (mkContext false (Examples.text "!ping")) once
     = (Ok VNone,
        mkState 4 (cooldowns once) ∅
          (trace once ++ [Replied "You are on cooldown for 3 seconds."])).
Proof.
  intros once. split.
  - refine (proj2 (cooldown_blocks_or_refreshes Examples.seconds_clock true
                     Examples.slow_bot (Examples.text "!p now")
                     (mkContext false (Examples.text "!p now"))
                     "p" "now" "!p now" Examples.slow_ping Examples.alice
                     Examples.fresh _ _ _ _ _ _ _) _).
    + reflexivity.
    + repeat (split; [reflexivity|]). right; reflexivity.
    + reflexivity.
    + reflexivity.
    + reflexivity.
    + reflexivity.
    + reflexivity.
    + vm_compute. discriminate.
  - refine (proj1 (cooldown_blocks_or_refreshes Examples.seconds_clock true
                     Examples.slow_bot (Examples.text "!ping")
                     (mkContext false (Examples.text "!ping"))
                     "ping" "" "!ping" Examples.slow_ping Examples.alice
                     once _ _ _ _ _ _ _) _).
    + reflexivity.
    + repeat (split; [reflexivity|]). left; split; reflexivity.
    + reflexivity.
    + reflexivity.
    + reflexivity.
    + reflexivity.
    + reflexivity.
    + reflexivity.
Defined.

(** Two invocations by the same user within the cooldown: the second one
    is answered with the cooldown text and calls nothing. *)
Example second_invocation_blocked :
  let context := mkContext false (Examples.text "!ping") in
  let s1 := snd (_handle_command Examples.seconds_clock true Examples.slow_bot
                   (Examples.text "!ping") context Examples.fresh) in
  _handle_command Examples.seconds_clock true Examples.slow_bot
    (Examples.text "!ping") context s1
  = (Ok VNone,
     mkState 4 (cooldowns s1) ∅
       (trace s1 ++ [Replied "You are on cooldown for 3 seconds."])).
Proof. vm_compute. reflexivity. Qed.

(** C9.  For a message that is exactly the prefix followed by ["help"]:
    when ["help"] is neither a command name nor an alias the router
    replies with the help listing and returns, calling nothing; when it is
    one, the router takes the command path for it (one of the three routed
    outcomes for the registered command, with the empty remainder), where
    no help listing is sent. *)
Theorem help_listing_yields_to_help_command (clock : nat -> Z)
    (text_first : bool) (bot : Bot) (data : Message) (context : Context)
    (s : State) :
  content data = Some (command_prefix bot +:+ "help") ->
  (command_exists bot "help" = false ->
   _handle_command clock text_first bot data context s
   = (Ok (VCMessage (CommandTable.__help__ (_commands bot))),
      mkState (tick s) (cooldowns s) (wait_for s)
        (trace s ++ [Replied (CommandTable.__help__ (_commands bot))])))
  /\ (command_exists bot "help" = true ->
      forall (c : Command) (a : MessageAuthor),
        CommandTable.fetch_command (_commands bot) (canonical bot "help")
        = Ok c ->
        author data = Some a ->
        ctx_message context = data ->
        routed_outcome clock bot context "help" "" c a s
          (_handle_command clock text_first bot data context s)).
Proof.
  intros Hcontent. split.
  - intros Hex. now apply handle_command_help.
  - intros Hex c a Hfetch Ha Hctx.
    eapply routed_outcomes; try eassumption.
    repeat (split; [reflexivity|]). left; now split.
Qed.

Lemma help_listing_yields_to_help_command_witness :
  _handle_command Examples.seconds_clock true Examples.slow_bot
    (Examples.text "!help")
    (mkContext false (Examples.text "!help")) Examples.fresh
  = (Ok (VCMessage (CommandTable.__help__ (_commands Examples.slow_bot))),
     mkState 0 ∅ ∅
       [Replied (CommandTable.__help__ (_commands Examples.slow_bot))])
  /\ routed_outcome Examples.seconds_clock Examples.help_bot
       (mkContext false (Examples.text "!help")) "help" ""
       Examples.help_command Examples.alice Examples.fresh
       (_handle_command Examples.seconds_clock true Examples.help_bot
          (Examples.text "!help")
          (mkContext false (Examples.text "!help")) Examples.fresh).
Proof.
  split.
  - refine (proj1 (help_listing_yields_to_help_command Examples.seconds_clock
                     true Examples.slow_bot (Examples.text "!help")
                     (mkContext false (Examples.text "!help"))
                     Examples.fresh _) _).
    + reflexivity.
    + reflexivity.
  - refine (proj2 (help_listing_yields_to_help_command Examples.seconds_clock
                     true Examples.help_bot (Examples.text "!help")
                     (mkContext false (Examples.text "!help"))
                     Examples.fresh _) _
              Examples.help_command Examples.alice _ _ _).
    + reflexivity.
    + reflexivity.
    + reflexivity.
    + reflexivity.
    + reflexivity.
Defined.

(** A registered [help] command is called in place of the listing. *)
Example registered_help_wins :
  _handle_command Examples.seconds_clock true Examples.help_bot
    (Examples.text "!help")
    (mkContext false (Examples.text "!help")) Examples.fresh
  = (Ok VNone,
     mkState 0 ∅ ∅
       [Called Examples.my_help
          [VCtx (mkContext false (Examples.text "!help"))]]).
Proof. reflexivity. Qed.

(** The listing of [slow_bot]: its one described command. *)
Example slow_bot_help :
  CommandTable.__help__ (_commands Examples.slow_bot) = "ping — Answers.
".
Proof. reflexivity. Qed.

(** ** Raising handlers *)

Lemma tidy_bind {A B} (m : M A) (k : A -> M B) :
  tidy m -> (forall a, tidy (k a)) -> tidy (bind m k).
Proof.
  intros Hm Hk s. unfold bind.
  destruct (Hm s) as (ext1 & Ht1 & Ho1).
  destruct (m s) as [[a|e] s1]; cbn [fst snd raised] in *.
  - destruct (Hk a s1) as (ext2 & Ht2 & Ho2).
    exists (ext1 ++ ext2). split; [now rewrite Ht2, Ht1, app_assoc|].
    destruct Ho1 as [Hc1 | (? & ? & ? & ? & _ & _ & _ & [=])].
    destruct Ho2 as [Hc2 | (pre & f & args & e & -> & Hpre & Hrun & Hx)].
    + left. now apply Forall_app.
    + right. exists (ext1 ++ pre), f, args, e.
      rewrite app_assoc. repeat split; try assumption. now apply Forall_app.
  - exists ext1. now split.
Qed.

Lemma tidy_quiet {A} (m : M A) :
  (forall s, exists ext, trace (snd (m s)) = trace s ++ ext /\ Forall calm ext) ->
  tidy m.
Proof.
  intros H s. destruct (H s) as (ext & Ht & Hc). exists ext. split; [exact Ht|].
  now left.
Qed.

Lemma tidy_silent {A} (m : M A) :
  (forall s, trace (snd (m s)) = trace s) -> tidy m.
Proof.
  intros H. apply tidy_quiet. intros s. exists []. rewrite app_nil_r.
  split; [apply H | constructor].
Qed.

Lemma tidy_ret {A} (a : A) : tidy (ret a).
Proof. now apply tidy_silent. Qed.

Lemma tidy_raise {A} (e : exn) : tidy (@raise A e).
Proof. now apply tidy_silent. Qed.

Lemma tidy_lift {A} (r : result A) : tidy (lift r).
Proof. now apply tidy_silent. Qed.

Lemma tidy_time (clock : nat -> Z) : tidy (time clock).
Proof. now apply tidy_silent. Qed.

Lemma tidy_log (e : effect) : calm e -> tidy (log e).
Proof.
  intros He. apply tidy_quiet. intros s. exists [e]. split; [reflexivity|].
  now constructor.
Qed.

Lemma tidy_call (f : callable) (args : list value) : tidy (call f args).
Proof.
  intros s. exists [Called f args]. unfold call, bind, log, lift.
  split; [now destruct (run f args)|].
  destruct (run f args) as [v|e] eqn:Hrun; cbn [fst raised].
  - left. constructor; [|constructor]. cbn. intros x. now rewrite Hrun.
  - right. exists [], f, args, e. repeat split; [constructor | exact Hrun].
Qed.

Lemma tidy_reply (context : Context) (text : string) :
  tidy (reply context text).
Proof.
  apply tidy_bind; [now apply tidy_log | intros; apply tidy_ret].
Qed.

Lemma tidy_suppress (m : M value) (s : State) :
  tidy m ->
  exists ext,
    trace (snd (suppress_KeyError m s)) = trace s ++ ext
    /\ (Forall calm ext
        \/ exists (pre : list effect) f args e,
             ext = pre ++ [Called f args] /\ Forall calm pre
             /\ run f args = Raise e
             /\ fst (suppress_KeyError m s)
                = match e with KeyError => Ok VNone | _ => Raise e end).
Proof.
  intros Hm. destruct (Hm s) as (ext & Ht & Ho). exists ext.
  unfold suppress_KeyError.
  destruct (m s) as [[v|e] s1]; cbn [fst snd raised] in *.
  - split; [exact Ht|]. left.
    now destruct Ho as [Hc | (? & ? & ? & ? & _ & _ & _ & [=])].
  - assert (Hgoal : forall r : result value,
              r = match e with KeyError => Ok VNone | _ => Raise e end ->
              trace s1 = trace s ++ ext
              /\ (Forall calm ext
                  \/ exists (pre : list effect) f args e',
                       ext = pre ++ [Called f args] /\ Forall calm pre
                       /\ run f args = Raise e'
                       /\ r = match e' with
                              | KeyError => Ok VNone
                              | _ => Raise e'
                              end)).
    { intros r ->. split; [exact Ht|].
      destruct Ho as [Hc | (pre & f & args & e' & -> & Hpre & Hrun & [= ->])];
        [now left|].
      right. now exists pre, f, args, e'. }
    destruct e; cbn [fst snd]; now apply Hgoal.
Qed.

Section Tidy.

Variables (clock : nat -> Z) (text_first : bool) (bot : Bot).

Lemma tidy_Cache_get (key : string) : tidy (Cache_get clock key).
Proof.
  apply tidy_quiet. intros s.
  exists [CacheGet key (live (clock (tick s)) (wait_for s !! key))].
  split; [reflexivity | repeat constructor].
Qed.

Lemma tidy_Cache_clear (key : string) : tidy (Cache_clear key).
Proof.
  apply tidy_quiet. intros s. exists [CacheClear].
  split; [reflexivity | repeat constructor].
Qed.

Lemma tidy_Cache_add (key text : string) (expire : Z) :
  tidy (Cache_add clock key text expire).
Proof.
  apply tidy_quiet. intros s. unfold Cache_add, bind, time. cbn [tock wait_for].
  destruct (live (clock (tick s)) (wait_for s !! key)).
  - exists []. rewrite app_nil_r. split; [reflexivity | constructor].
  - eexists [_]. split; [reflexivity | repeat constructor].
Qed.

Lemma tidy_set_cooldown (command_name : string) (seconds : Z) (user : string) :
  tidy (set_cooldown clock command_name seconds user).
Proof.
  apply tidy_quiet. intros s. eexists [_].
  split; [reflexivity | repeat constructor].
Qed.

Lemma tidy_fetch_cooldown (command_name user : string) :
  tidy (fetch_cooldown command_name user).
Proof. now apply tidy_silent. Qed.

Lemma tidy_author_userId (data : Message) : tidy (author_userId data).
Proof. unfold author_userId. destruct (author data); now apply tidy_silent. Qed.

Lemma tidy_subscript_content (data : Message) : tidy (subscript_content data).
Proof.
  unfold subscript_content. destruct (content data); now apply tidy_silent.
Qed.

Lemma tidy_fetch_command (command_name : string) :
  tidy (fetch_command bot command_name).
Proof. apply tidy_lift. Qed.

Ltac tidy_steps :=
  repeat first
    [ apply tidy_ret | apply tidy_raise | apply tidy_lift | apply tidy_time
    | apply tidy_call | apply tidy_reply
    | apply tidy_Cache_get | apply tidy_Cache_clear | apply tidy_Cache_add
    | apply tidy_set_cooldown | apply tidy_fetch_cooldown
    | apply tidy_author_userId | apply tidy_subscript_content
    | apply tidy_fetch_command
    | apply tidy_bind; [|intros ?]
    | match goal with
      | |- tidy (match ?x with _ => _ end) => destruct x
      end ].

Lemma tidy_add_cache (chat user text : string) :
  tidy (_add_cache clock chat user text).
Proof. unfold _add_cache. tidy_steps. Qed.

Lemma tidy_check_cooldown (command_name : string) (data : Message)
    (context : Context) :
  tidy (_check_cooldown clock bot command_name data context).
Proof. unfold _check_cooldown. tidy_steps. Qed.

Lemma tidy_handle_all_events (event : string) (data : Message)
    (context : Context) :
  tidy (_handle_all_events bot event data context).
Proof. unfold _handle_all_events. tidy_steps. Qed.

Lemma tidy_for_each (events : list string) (body : string -> M value) :
  (forall event, tidy (body event)) -> tidy (for_each events body).
Proof.
  intros Hbody. induction events as [|event rest IH]; cbn [for_each].
  - apply tidy_ret.
  - apply tidy_bind; [apply Hbody | intros _; exact IH].
Qed.

Lemma tidy_handle_command (data : Message) (context : Context) :
  tidy (_handle_command clock text_first bot data context).
Proof.
  unfold _handle_command. apply tidy_bind; [apply tidy_subscript_content|].
  intros text. cbv zeta.
  repeat match goal with
         | |- tidy (if ?b then _ else _) => destruct b
         end; tidy_steps.
  apply tidy_for_each. intros event. apply tidy_handle_all_events.
Qed.

Lemma tidy_handle_event_body (event : string) (data : Message) :
  tidy ((if String.eqb event "text_message" then
           let context := mkContext (intents bot) data in
           text <- subscript_content data ;;
           let known :=
             command_exists bot
               (PyStr.first_token
                  (PyStr.drop (PyStr.len (command_prefix bot)) text)) in
           (if intents bot && negb known then
              user <- author_userId data ;;
              _add_cache clock (chatId data) user text
            else ret tt) ;;;
           _handle_command clock text_first bot data context ;;;
           ret tt
         else ret tt) ;;;
        match _events bot !! event with
        | Some handler =>
            let context := mkContext (intents bot) data in
            if existsb (String.eqb event) raw_events
            then call handler [VData data]
            else _handle_all_events bot event data context
        | None => ret VNone
        end).
Proof.
  apply tidy_bind.
  - destruct (String.eqb event "text_message"); [|apply tidy_ret].
    cbv zeta. apply tidy_bind; [apply tidy_subscript_content | intros text].
    apply tidy_bind.
    + destruct (intents bot && negb _); tidy_steps.
    + intros _. apply tidy_bind; [apply tidy_handle_command|].
      intros _. apply tidy_ret.
  - intros _. destruct (_events bot !! event); [|apply tidy_ret].
    cbv zeta. destruct (existsb _ _);
      [apply tidy_call | apply tidy_handle_all_events].
Qed.

End Tidy.

Lemma calm_not_raising (l pre post : list effect) (f : callable)
    (args : list value) (e : exn) :
  Forall calm l -> l = pre ++ Called f args :: post ->
  run f args = Raise e -> False.
Proof.
  intros Hl -> Hrun. apply Forall_app in Hl as [_ Hl].
  apply Forall_cons in Hl as [Hc _]. exact (Hc e Hrun).
Qed.

(** C4, as the code has it.  In every dispatch, a handler call that raises
    is the last effect of the dispatch: nothing is called or sent after
    it, so the exception is not forwarded to the handler registered under
    ["error"].  A [KeyError] is swallowed and [_handle_event] returns
    [None]; any other exception leaves [_handle_event] and reaches its
    caller. *)
Theorem raising_handler_ends_dispatch (clock : nat -> Z) (text_first : bool)
    (bot : Bot) (event : string) (data : Message) (s : State) :
  exists ext : list effect,
    trace (snd (_handle_event clock text_first bot event data s))
    = trace s ++ ext
    /\ forall (pre post : list effect) (f : callable) (args : list value)
         (e : exn),
        ext = pre ++ Called f args :: post ->
        run f args = Raise e ->
        post = []
        /\ fst (_handle_event clock text_first bot event data s)
           = match e with KeyError => Ok VNone | _ => Raise e end.
Proof.
  destruct (tidy_suppress _ s
              (tidy_handle_event_body clock text_first bot event data))
    as (ext & Ht & Ho).
  exists ext. split; [exact Ht|].
  intros pre post f args e Hext Hrun.
  destruct Ho as [Hc | (pre' & f' & args' & e' & Hext' & Hpre & Hrun' & Hres)].
  - destruct (calm_not_raising _ _ _ _ _ _ Hc Hext Hrun).
  - rewrite Hext' in Hext.
    destruct post as [|z post _] using rev_ind.
    + apply app_inj_tail in Hext as [_ [= -> ->]].
      rewrite Hrun in Hrun'. injection Hrun' as <-.
      split; [reflexivity | exact Hres].
    + rewrite app_comm_cons, app_assoc in Hext.
      apply app_inj_tail in Hext as [-> _].
      destruct (calm_not_raising _ _ _ _ _ _ Hpre eq_refl Hrun).
Qed.

Lemma raising_handler_ends_dispatch_witness :
  fst (_handle_event Examples.seconds_clock true Examples.fragile_bot
         "image_message" (Examples.text "pic") Examples.fresh)
  = Raise (HandlerError "boom").
Proof.
  destruct (raising_handler_ends_dispatch Examples.seconds_clock true
              Examples.fragile_bot "image_message" (Examples.text "pic")
              Examples.fresh) as (ext & Ht & Hlast).
  apply (Hlast [] [] Examples.boom
           [VCtx (mkContext false (Examples.text "pic"))]
           (HandlerError "boom")); [|reflexivity].
  exact (app_inv_head [] _ _ (eq_sym Ht)).
Defined.

(** C4 as stated fails: with an error handler registered, an
    image handler that raises makes the dispatch raise to its caller, and
    the only call of the dispatch is the one of the image handler. *)
Lemma error_handler_not_reached :
  _events Examples.fragile_bot !! "error" = Some Examples.on_err
  /\ _handle_event Examples.seconds_clock true Examples.fragile_bot
       "image_message" (Examples.text "pic") Examples.fresh
     = (Raise (HandlerError "boom"),
        mkState 0 ∅ ∅
          [Called Examples.boom
             [VCtx (mkContext false (Examples.text "pic"))]])
  /\ ~ (exists args,
          In (Called Examples.on_err args)
             (trace (snd (_handle_event Examples.seconds_clock true
                            Examples.fragile_bot "image_message"
                            (Examples.text "pic") Examples.fresh)))).
Proof.
  split; [reflexivity|]. split; [reflexivity|].
  intros [args [H|[]]]. discriminate H.
Qed.

(** A handler that raises [KeyError] is silenced: the dispatch returns
    [None] and the error handler is not called either. *)
Example key_error_is_swallowed :
  _handle_event Examples.seconds_clock true
    (on_error Examples.on_err
       (register "image_message"
          (Examples.raising "lookup" ["ctx"] KeyError) Examples.bare))
    "image_message" (Examples.text "pic") Examples.fresh
  = (Ok VNone,
     mkState 0 ∅ ∅
       [Called (Examples.raising "lookup" ["ctx"] KeyError)
          [VCtx (mkContext false (Examples.text "pic"))]]).
Proof. reflexivity. Qed.

(** Whatever the bot: once the router has returned, the text-message
    handler is dispatched from the state the router left. *)
Lemma text_message_falls_through (clock : nat -> Z) (text_first : bool)
    (bot : Bot) (data : Message) (text : string) (v : value)
    (s s1 : State) :
  intents bot = false ->
  content data = Some text ->
  _handle_command clock text_first bot data (mkContext (intents bot) data) s
  = (Ok v, s1) ->
  _handle_event clock text_first bot "text_message" data s
  = suppress_KeyError
      (match _events bot !! "text_message" with
       | Some _ =>
           _handle_all_events bot "text_message" data
             (mkContext (intents bot) data)
       | None => ret VNone
       end) s1.
Proof.
  intros Hi Hcontent Hcmd.
  unfold _handle_event, suppress_KeyError, subscript_content.
  rewrite Hcontent, Hi in *. cbn [String.eqb Ascii.eqb Bool.eqb andb bind ret].
  rewrite Hcmd. cbn [existsb raw_events String.eqb Ascii.eqb Bool.eqb orb].
  now destruct (_events bot !! "text_message").
Qed.

(** C1.  A text message is not handled by the router alone: after
    [_handle_command] returns, [_handle_event] goes on to the direct
    dispatch of ["text_message"].  So a message that invokes a command
    also reaches the generic text-message handler; with both generic
    handlers registered a message that is no command reaches the
    text-message handler twice; and with only the text-message handler
    registered, a process that iterates the set with the console event
    first never calls it. *)
Theorem text_message_is_dispatched_twice :
  _handle_event Examples.seconds_clock true Examples.chatty_bot
    "text_message" (Examples.text "!ping") Examples.fresh
  = (Ok VNone,
     mkState 0 ∅ ∅
       [Called Examples.ping
          [VCtx (mkContext false (Examples.text "!ping")); VStr ""];
        Called Examples.on_text
          [VCtx (mkContext false (Examples.text "!ping"))]])
  /\ _handle_event Examples.seconds_clock true Examples.console_bot
       "text_message" (Examples.text "hello") Examples.fresh
     = (Ok VNone,
        mkState 0 ∅ ∅
          [Called Examples.on_text
             [VCtx (mkContext false (Examples.text "hello"))];
           Called Examples.on_console
             [VCtx (mkContext false (Examples.text "hello"))];
           Called Examples.on_text
             [VCtx (mkContext false (Examples.text "hello"))]])
  /\ _handle_event Examples.seconds_clock false Examples.chatty_bot
       "text_message" (Examples.text "hello") Examples.fresh
     = (Ok VNone, Examples.fresh).
Proof. repeat split. Qed.

(** ** Waiting for a reply *)

Section Waiting.

Variable clock : nat -> Z.
Variable others : nat -> gmap string (string * Z) -> gmap string (string * Z).
Variables (self : Context) (message : string) (timeout start : Z).
Variable a : MessageAuthor.
Hypothesis Hauthor : author (ctx_message self) = Some a.

Let key := cache_key (chatId (ctx_message self)) (userId a).

(** One turn of the loop. *)
Lemma poll_turn (fuel k : nat) (s : State) :
  poll clock others self message timeout start (S fuel) k s
  = if clock (tick s) - start <? timeout * us_per_second then
      let found :=
        live (clock (S (tick s))) (others k (wait_for s) !! key) in
      let s2 := polled (others k) key found s in
      if same_text found message
      then Some (Ok (VData (ctx_message self)), cleared s2)
      else if match found with Some _ => true | None => false end
           then Some (Ok VNone, cleared s2)
           else poll clock others self message timeout start fuel (S k) s2
    else Some (Ok VNone, cleared (tock s)).
Proof.
  cbn [poll]. unfold own_key, author_userId. rewrite Hauthor.
  destruct (clock (tick s) - start <? timeout * us_per_second);
    reflexivity.
Qed.

(** Polls that find nothing inside the timeout only use up fuel. *)
Lemma poll_unanswered (n : nat) :
  forall (fuel : nat) (s : State),
    (forall j : nat,
        (j < n)%nat ->
        clock (tick s + 2 * j)%nat - start < timeout * us_per_second
        /\ live (clock (S (tick s + 2 * j)))
             (cache_after others (wait_for s) (S j) !! key) = None) ->
    poll clock others self message timeout start (n + fuel) 0 s
    = poll clock others self message timeout start fuel n
        (unanswered_state others key n s).
Proof.
  induction n as [|n IH]; intros fuel s Hquiet.
  - unfold unanswered_state. cbn [Nat.add Nat.mul cache_after repeat].
    rewrite Nat.add_0_r, app_nil_r. now destruct s.
  - replace (S n + fuel)%nat with (n + S fuel)%nat by lia.
    rewrite IH by (intros j Hj; apply Hquiet; lia).
    destruct (Hquiet n (Nat.lt_succ_diag_r n)) as [Hin Hnone].
    rewrite poll_turn. cbn [unanswered_state tick wait_for].
    apply Z.ltb_lt in Hin. rewrite Hin. cbv zeta.
    cbn [cache_after] in Hnone. rewrite Hnone. cbn [same_text].
    f_equal. unfold polled, unanswered_state.
    cbn [tick cooldowns wait_for trace cache_after].
    f_equal; [lia|].
    rewrite <- app_assoc. f_equal. symmetry. apply repeat_cons.
Qed.

End Waiting.



(** The same three runs with the reply written straight into the cache:
    the state each run of the loop leaves. *)
Example wait_heard :
  wait_for_message Examples.tenths_clock (Examples.answer 3 "$verify")
    (mkContext true (Examples.text "joined")) "$verify" 2 20 Examples.fresh
  = Some (Ok (VData (Examples.text "joined")),
          mkState 9 ∅ ∅
            [CacheGet "chat1_userA" None; CacheGet "chat1_userA" None;
             CacheGet "chat1_userA" None;
             CacheGet "chat1_userA" (Some "$verify"); CacheClear]).
Proof. vm_compute. reflexivity. Qed.

Example wait_misheard :
  wait_for_message Examples.tenths_clock (Examples.answer 1 "hello")
    (mkContext true (Examples.text "joined")) "$verify" 2 20 Examples.fresh
  = Some (Ok VNone,
          mkState 5 ∅ ∅
            [CacheGet "chat1_userA" None;
             CacheGet "chat1_userA" (Some "hello"); CacheClear]).
Proof. vm_compute. reflexivity. Qed.

Example wait_timed_out :
  wait_for_message Examples.seconds_clock Examples.idle
    (mkContext true (Examples.text "joined")) "$verify" 2 20 Examples.fresh
  = Some (Ok VNone,
          mkState 4 ∅ ∅ [CacheGet "chat1_userA" None; CacheClear]).
Proof. vm_compute. reflexivity. Qed.

(** C5.  Clearing is not local to a key.  Recording a new text for
    (chat1, userA) over an unread one removes the unread, unexpired entry
    of (chat2, userB); and a wait for (chat3, userC) that times out
    removes the entries of both. *)
Theorem clearing_drops_other_keys :
  wait_for Examples.two_waiting !! cache_key "chat2" "userB"
  = Some ("$verify", 90000000)
  /\ (let s1 := snd (_add_cache Examples.seconds_clock "chat1" "userA"
                       "again" Examples.two_waiting) in
      wait_for s1 !! cache_key "chat1" "userA" = Some ("again", 91000000)
      /\ wait_for s1 !! cache_key "chat2" "userB" = None)
  /\ wait_for_message Examples.seconds_clock Examples.idle
       (mkContext true Examples.joined) "$verify" 2 20 Examples.two_waiting
     = Some (Ok VNone,
             mkState 4 ∅ ∅ [CacheGet "chat3_userC" None; CacheClear]).
Proof. vm_compute. repeat split. Qed.

(** * Further properties *)

(** ** Direct dispatch *)

Lemma not_raw_event (event : string) :
  ~ In event raw_events -> existsb (String.eqb event) raw_events = false.
Proof.
  intros H. apply not_true_is_false. intros Hex.
  apply existsb_exists in Hex as (x & Hx & Heq).
  apply String.eqb_eq in Heq as <-. exact (H Hx).
Qed.

Lemma raw_event (event : string) :
  In event raw_events -> existsb (String.eqb event) raw_events = true.
Proof.
  intros H. apply existsb_exists. exists event. split; [exact H|].
  apply String.eqb_refl.
Qed.

Lemma not_text_message (event : string) :
  event <> "text_message" -> String.eqb event "text_message" = false.
Proof. intros H. now apply String.eqb_neq. Qed.

Lemma direct_dispatch_run (clock : nat -> Z) (text_first : bool) (bot : Bot)
    (event : string) (data : Message) (handler : callable)
    (a : MessageAuthor) (s : State) :
  event <> "text_message" ->
  ~ In event raw_events ->
  _events bot !! event = Some handler ->
  author data = Some a ->
  let context := mkContext (intents bot) data in
  let args :=
    map (Spec.resolve_by_name context a (VData data)) (parameters handler) in
  _handle_event clock text_first bot event data s
  = (match run handler args with
     | Raise KeyError => Ok VNone
     | r => r
     end,
     mkState (tick s) (cooldowns s) (wait_for s)
       (trace s ++ [Called handler args]))
  /\ forall i : nat,
      parameters handler !! i = Some "message" ->
      args !! i = Some (match content data with
                        | Some c => VStr c
                        | None => VNone
                        end).
Proof.
  intros Hev Hraw Hh Ha context args. split.
  - unfold _handle_event, suppress_KeyError.
    rewrite (not_text_message _ Hev), Hh. cbn [bind ret].
    rewrite (not_raw_event _ Hraw). unfold _handle_all_events. rewrite Hh.
    cbn [bind lift].
    rewrite (set_parameters_with_author (mkContext (intents bot) data)
               handler (VData data) a Ha).
    fold context. fold args. cbn [call bind log lift].
    destruct (run handler args) as [v|[]]; reflexivity.
  - intros i Hi. unfold args. now rewrite list_lookup_fmap, Hi.
Qed.

(** X1.  An event other than ["text_message"] and outside the raw events,
    with a handler registered and a payload that has an author: the
    dispatch is one call of the handler under [suppress(KeyError)], and
    nothing else.  The handler gets one argument per declared parameter,
    chosen by name, the [message] parameter being the payload's own
    content; the dispatch returns what that call returns, [None] when it
    raises [KeyError]. *)
Theorem direct_dispatch (clock : nat -> Z) (text_first : bool) (bot : Bot)
    (event : string) (data : Message) (handler : callable)
    (a : MessageAuthor) (s : State) :
  event <> "text_message" ->
  ~ In event raw_events ->
  _events bot !! event = Some handler ->
  author data = Some a ->
  let context := mkContext (intents bot) data in
  let args :=
    map (Spec.resolve_by_name context a (VData data)) (parameters handler) in
  _handle_event clock text_first bot event data s
  = suppress_KeyError (call handler args) s
  /\ forall i : nat,
      parameters handler !! i = Some "message" ->
      args !! i = Some (match content data with
                        | Some c => VStr c
                        | None => VNone
                        end).
Proof.
  intros Hev Hraw Hh Ha context args. split.
  - unfold _handle_event, suppress_KeyError.
    rewrite (not_text_message _ Hev), Hh. cbn [bind ret].
    rewrite (not_raw_event _ Hraw). unfold _handle_all_events. rewrite Hh.
    cbn [bind lift].
    now rewrite (set_parameters_with_author (mkContext (intents bot) data)
                   handler (VData data) a Ha).
  - intros i Hi. unfold args. now rewrite list_lookup_fmap, Hi.
Qed.

Lemma direct_dispatch_witness :
  _handle_event Examples.seconds_clock true Examples.fragile_bot
    "image_message" (Examples.text "pic") Examples.fresh
  = suppress_KeyError
      (call Examples.boom [VCtx (mkContext false (Examples.text "pic"))])
      Examples.fresh.
Proof.
  refine (proj1 (direct_dispatch Examples.seconds_clock true
                   Examples.fragile_bot "image_message" (Examples.text "pic")
                   Examples.boom Examples.alice Examples.fresh _ _ _ _)).
  - discriminate.
  - intros H. repeat (destruct H as [H|H]; [discriminate H|]). exact H.
  - reflexivity.
  - reflexivity.
Defined.

(** X2.  An event other than ["text_message"] for which no handler is
    registered is dropped: [_handle_event] returns [None] and the state
    is the one it started from. *)
Theorem unregistered_event_is_dropped (clock : nat -> Z) (text_first : bool)
    (bot : Bot) (event : string) (data : Message) (s : State) :
  event <> "text_message" ->
  _events bot !! event = None ->
  _handle_event clock text_first bot event data s = (Ok VNone, s).
Proof.
  intros Hev Hh. unfold _handle_event, suppress_KeyError.
  now rewrite (not_text_message _ Hev), Hh.
Qed.

Lemma unregistered_event_is_dropped_witness :
  _handle_event Examples.seconds_clock true Examples.chatty_bot
    "member_join" Examples.joined Examples.two_waiting
  = (Ok VNone, Examples.two_waiting).
Proof.
  apply (unregistered_event_is_dropped Examples.seconds_clock true
           Examples.chatty_bot "member_join" Examples.joined
           Examples.two_waiting).
  - discriminate.
  - reflexivity.
Defined.

(** X3.  For the four raw events the registered handler is called on the
    payload itself, without parameter resolution: one argument whatever
    the handler declares, and no [AttributeError] for a payload without
    an author. *)
Theorem raw_event_passes_payload (clock : nat -> Z) (text_first : bool)
    (bot : Bot) (event : string) (data : Message) (handler : callable)
    (s : State) :
  In event raw_events ->
  _events bot !! event = Some handler ->
  _handle_event clock text_first bot event data s
  = (match run handler [VData data] with
     | Raise KeyError => Ok VNone
     | r => r
     end,
     mkState (tick s) (cooldowns s) (wait_for s)
       (trace s ++ [Called handler [VData data]])).
Proof.
  intros Hraw Hh.
  assert (Hev : event <> "text_message").
  { intros ->. repeat (destruct Hraw as [Hraw|Hraw]; [discriminate Hraw|]).
    exact Hraw. }
  unfold _handle_event, suppress_KeyError.
  rewrite (not_text_message _ Hev), Hh. cbn [bind ret].
  rewrite (raw_event _ Hraw). cbn [call bind log lift].
  destruct (run handler [VData data]) as [v|[]]; reflexivity.
Qed.

Lemma raw_event_passes_payload_witness :
  _handle_event Examples.seconds_clock true
    (register "user_online" Examples.only_ctx Examples.bare)
    "user_online" (Examples.anonymous "online") Examples.fresh
  = (Ok VNone,
     mkState 0 ∅ ∅
       [Called Examples.only_ctx [VData (Examples.anonymous "online")]]).
Proof.
  apply (raw_event_passes_payload Examples.seconds_clock true
           (register "user_online" Examples.only_ctx Examples.bare)
           "user_online" (Examples.anonymous "online") Examples.only_ctx
           Examples.fresh).
  - left. reflexivity.
  - reflexivity.
Defined.

Lemma resolver_needs_author (context : Context) (f : callable)
    (override : value) :
  author (ctx_message context) = None ->
  _set_parameters context f override = Raise AttributeError.
Proof.
  intros Ha. unfold _set_parameters, Context_author. now rewrite Ha.
Qed.

(** X4.  An event other than ["text_message"] and outside the raw events,
    with a handler registered but a payload without an author: the
    handler is not called and [AttributeError] leaves [_handle_event],
    which only silences [KeyError]. *)
Theorem authorless_payload_escapes (clock : nat -> Z) (text_first : bool)
    (bot : Bot) (event : string) (data : Message) (handler : callable)
    (s : State) :
  event <> "text_message" ->
  ~ In event raw_events ->
  _events bot !! event = Some handler ->
  author data = None ->
  _handle_event clock text_first bot event data s = (Raise AttributeError, s).
Proof.
  intros Hev Hraw Hh Ha. unfold _handle_event, suppress_KeyError.
  rewrite (not_text_message _ Hev), Hh. cbn [bind ret].
  rewrite (not_raw_event _ Hraw). unfold _handle_all_events. rewrite Hh.
  cbn [bind lift].
  now rewrite (resolver_needs_author (mkContext (intents bot) data) handler
                 (VData data) Ha).
Qed.

Lemma authorless_payload_escapes_witness :
  _handle_event Examples.seconds_clock true
    (register "member_join" Examples.no_params Examples.bare)
    "member_join" (Examples.anonymous "joined") Examples.fresh
  = (Raise AttributeError, Examples.fresh).
Proof.
  apply (authorless_payload_escapes Examples.seconds_clock true
           (register "member_join" Examples.no_params Examples.bare)
           "member_join" (Examples.anonymous "joined") Examples.no_params
           Examples.fresh).
  - discriminate.
  - intros H. repeat (destruct H as [H|H]; [discriminate H|]). exact H.
  - reflexivity.
  - reflexivity.
Defined.

(** X5.  With an author in the context, [_set_parameters] returns one
    argument per declared parameter, in declaration order, each chosen by
    the parameter's name; a name outside [ctx], [member], [message],
    [username], [userId] gets [None]. *)
Theorem resolver_supplies_by_name (context : Context) (f : callable)
    (override : value) (a : MessageAuthor) :
  Context_author context = Some a ->
  exists args : list value,
    _set_parameters context f override = Ok args
    /\ length args = length (parameters f)
    /\ (forall (i : nat) (p : string),
          parameters f !! i = Some p ->
          args !! i = Some (Spec.resolve_by_name context a override p))
    /\ (forall (i : nat) (p : string),
          parameters f !! i = Some p ->
          ~ In p ["ctx"; "member"; "message"; "username"; "userId"] ->
          args !! i = Some VNone).
Proof.
  intros Ha. eexists.
  split; [exact (set_parameters_with_author context f override a Ha)|].
  split; [apply length_map|]. split.
  - intros i p Hp. now rewrite list_lookup_fmap, Hp.
  - intros i p Hp Hout. rewrite list_lookup_fmap, Hp. cbn [fmap option_fmap option_map].
    f_equal. unfold Spec.resolve_by_name.
    repeat match goal with
           | |- (if String.eqb p ?k then _ else _) = _ =>
               destruct (String.eqb_spec p k) as [->|_];
               [exfalso; apply Hout; cbn; tauto|]
           end.
    reflexivity.
Qed.

Lemma resolver_supplies_by_name_witness :
  exists args : list value,
    _set_parameters (mkContext false (Examples.text "hello"))
      (Examples.returning "h" ["userId"; "nick"; "message"]) VNone
    = Ok args
    /\ length args = 3%nat
    /\ (forall (i : nat) (p : string),
          ["userId"; "nick"; "message"] !! i = Some p ->
          args !! i
          = Some (Spec.resolve_by_name (mkContext false (Examples.text "hello"))
                    Examples.alice VNone p))
    /\ (forall (i : nat) (p : string),
          ["userId"; "nick"; "message"] !! i = Some p ->
          ~ In p ["ctx"; "member"; "message"; "username"; "userId"] ->
          args !! i = Some VNone).
Proof.
  apply (resolver_supplies_by_name (mkContext false (Examples.text "hello"))
           (Examples.returning "h" ["userId"; "nick"; "message"]) VNone
           Examples.alice).
  reflexivity.
Defined.

(** ** [emit] and the deleted-message wrapper *)

(** X6.  [emit] on an event with a registered handler calls the handler
    once on the arguments as given, without parameter resolution, returns
    [None] whatever the handler returns and lets every exception of the
    handler through, [KeyError] included; state other than the trace is
    untouched. *)
Theorem emit_calls_verbatim (bot : Bot) (event : string) (args : list value)
    (handler : callable) (s : State) :
  _events bot !! event = Some handler ->
  emit bot event args s
  = (match run handler args with
     | Ok _ => Ok VNone
     | Raise e => Raise e
     end,
     mkState (tick s) (cooldowns s) (wait_for s)
       (trace s ++ [Called handler args])).
Proof.
  intros Hh. unfold emit. rewrite Hh. cbn [call bind log lift ret].
  now destruct (run handler args).
Qed.

Lemma emit_calls_verbatim_witness :
  emit Examples.chatty_bot "text_message" [VStr "!ping"] Examples.fresh
  = (Ok VNone, mkState 0 ∅ ∅ [Called Examples.on_text [VStr "!ping"]]).
Proof.
  apply (emit_calls_verbatim Examples.chatty_bot "text_message"
           [VStr "!ping"] Examples.on_text Examples.fresh).
  reflexivity.
Defined.

(** X7.  On an event without a handler [emit] does nothing and returns
    [None], where [_handle_all_events] raises [KeyError]. *)
Theorem emit_tolerates_missing_handler (bot : Bot) (event : string)
    (args : list value) (data : Message) (context : Context) (s : State) :
  _events bot !! event = None ->
  emit bot event args s = (Ok VNone, s)
  /\ _handle_all_events bot event data context s = (Raise KeyError, s).
Proof.
  intros Hh. unfold emit, _handle_all_events. now rewrite Hh.
Qed.

Lemma emit_tolerates_missing_handler_witness :
  emit Examples.bare "ready" [] Examples.fresh = (Ok VNone, Examples.fresh)
  /\ _handle_all_events Examples.bare "ready" (Examples.text "x")
       (mkContext false (Examples.text "x")) Examples.fresh
     = (Raise KeyError, Examples.fresh).
Proof.
  apply (emit_tolerates_missing_handler Examples.bare "ready" []
           (Examples.text "x") (mkContext false (Examples.text "x"))
           Examples.fresh).
  reflexivity.
Defined.

Lemma resolve_without_override (context : Context) (a : MessageAuthor)
    (data : Message) (p : string) :
  Spec.resolve_by_name context a VNone p
  = Spec.resolve_by_name context a (VData data) p.
Proof. reflexivity. Qed.

(** X8.  A function registered with [on_delete_message] is called, on a
    ["delete_message"] event whose payload has an author, with the same
    arguments it would receive as a directly registered handler (the
    [message] parameter being the payload's content); its return value is
    discarded, the dispatch returns [None]; what the trace shows as called
    is the wrapper, with the context as its one argument. *)
Theorem deleted_message_handler (clock : nat -> Z) (text_first : bool)
    (bot : Bot) (func : callable) (data : Message) (a : MessageAuthor)
    (s : State) :
  author data = Some a ->
  let context := mkContext (intents bot) data in
  let args :=
    map (Spec.resolve_by_name context a (VData data)) (parameters func) in
  _handle_event clock text_first (on_delete_message func bot)
    "delete_message" data s
  = (match run func args with
     | Ok _ => Ok VNone
     | Raise KeyError => Ok VNone
     | Raise e => Raise e
     end,
     mkState (tick s) (cooldowns s) (wait_for s)
       (trace s ++ [Called (delete_wrapper func) [VCtx context]])).
Proof.
  intros Ha context args.
  assert (Hreg : _events (on_delete_message func bot) !! "delete_message"
                 = Some (delete_wrapper func)) by apply lookup_insert_eq.
  destruct (direct_dispatch_run clock text_first (on_delete_message func bot)
              "delete_message" data (delete_wrapper func) a s) as [Hrun _];
    try assumption; try discriminate.
  { intros H. repeat (destruct H as [H|H]; [discriminate H|]). exact H. }
  rewrite Hrun.
  change (map _ (parameters (delete_wrapper func))) with [VCtx context].
  cbn [run delete_wrapper].
  rewrite (set_parameters_with_author context func VNone a Ha).
  rewrite (map_ext _ _ (resolve_without_override context a data)).
  fold args. now destruct (run func args) as [v|[]].
Qed.

Lemma deleted_message_handler_witness :
  _handle_event Examples.seconds_clock true
    (on_delete_message Examples.ping Examples.bare)
    "delete_message" (Examples.text "gone") Examples.fresh
  = (Ok VNone,
     mkState 0 ∅ ∅
       [Called (delete_wrapper Examples.ping)
          [VCtx (mkContext false (Examples.text "gone"))]]).
Proof.
  apply (deleted_message_handler Examples.seconds_clock true Examples.bare
           Examples.ping (Examples.text "gone") Examples.alice
           Examples.fresh).
  reflexivity.
Defined.

(** ** What the dispatch leaves alone *)

Lemma keeps_bind {A B X} (component : State -> X) (m : M A) (k : A -> M B) :
  keeps component m -> (forall a, keeps component (k a)) ->
  keeps component (bind m k).
Proof.
  intros Hm Hk s. unfold bind. specialize (Hm s).
  destruct (m s) as [[a|e] s1]; cbn [snd] in *; [|exact Hm].
  now rewrite Hk.
Qed.

Lemma keeps_for_each {X} (component : State -> X) (events : list string)
    (body : string -> M value) :
  (forall event, keeps component (body event)) ->
  keeps component (for_each events body).
Proof.
  intros Hbody. induction events as [|event rest IH]; cbn [for_each].
  - now intros s.
  - apply keeps_bind; [apply Hbody | intros _; exact IH].
Qed.

Ltac keeps_steps :=
  repeat first
    [ apply keeps_bind; [|intros ?]
    | match goal with
      | |- keeps _ (match ?x with _ => _ end) => destruct x
      end
    | solve [intros ?; reflexivity]
    | progress unfold author_userId, subscript_content ].

Lemma snd_suppress (m : M value) (s : State) :
  snd (suppress_KeyError m s) = snd (m s).
Proof. unfold suppress_KeyError. now destruct (m s) as [[v|[]] s1]. Qed.

Section Frames.

Variables (clock : nat -> Z) (text_first : bool) (bot : Bot).

Lemma check_cooldown_keeps_cache (command_name : string) (data : Message)
    (context : Context) :
  keeps wait_for (_check_cooldown clock bot command_name data context).
Proof. unfold _check_cooldown. keeps_steps. Qed.

Lemma handle_all_events_keeps {X} (component : State -> X)
    (event : string) (data : Message) (context : Context) :
  (forall s e, component (mkState (tick s) (cooldowns s) (wait_for s)
                            (trace s ++ [e])) = component s) ->
  keeps component (_handle_all_events bot event data context).
Proof.
  intros Hlog. unfold _handle_all_events.
  destruct (_events bot !! event); [|now intros s].
  apply keeps_bind; [intros s; reflexivity | intros args].
  intros s. cbn [call bind log lift].
  destruct (run c args); cbn [snd]; apply Hlog.
Qed.

Lemma handle_command_keeps_cache (data : Message) (context : Context) :
  keeps wait_for (_handle_command clock text_first bot data context).
Proof.
  unfold _handle_command. apply keeps_bind; [keeps_steps|].
  intros text. cbv zeta.
  repeat match goal with
         | |- keeps _ (if ?b then _ else _) => destruct b
         end; keeps_steps.
  apply keeps_for_each. intros event.
  now apply handle_all_events_keeps.
Qed.

Lemma direct_part_keeps {X} (component : State -> X) (event : string)
    (data : Message) :
  (forall s e, component (mkState (tick s) (cooldowns s) (wait_for s)
                            (trace s ++ [e])) = component s) ->
  keeps component
    (match _events bot !! event with
     | Some handler =>
         let context := mkContext (intents bot) data in
         if existsb (String.eqb event) raw_events
         then call handler [VData data]
         else _handle_all_events bot event data context
     | None => ret VNone
     end).
Proof.
  intros Hlog. destruct (_events bot !! event); [|now intros s].
  cbv zeta. destruct (existsb _ _); [|now apply handle_all_events_keeps].
  intros s. cbn [call bind log lift].
  destruct (run c [VData data]); cbn [snd]; apply Hlog.
Qed.

End Frames.

(** *** The router's own effects *)

Lemma emits_bind {A B} (P : effect -> Prop) (m : M A) (k : A -> M B) :
  emits P m -> (forall a, emits P (k a)) -> emits P (bind m k).
Proof.
  intros Hm Hk s. unfold bind.
  destruct (Hm s) as (ext1 & Ht1 & Hp1).
  destruct (m s) as [[a|e] s1]; cbn [snd] in *; [|now exists ext1].
  destruct (Hk a s1) as (ext2 & Ht2 & Hp2).
  exists (ext1 ++ ext2). split; [now rewrite Ht2, Ht1, app_assoc|].
  now apply Forall_app.
Qed.

Lemma emits_silent {A} (P : effect -> Prop) (m : M A) :
  (forall s, trace (snd (m s)) = trace s) -> emits P m.
Proof.
  intros H s. exists []. rewrite app_nil_r. split; [apply H | constructor].
Qed.

Lemma emits_log (P : effect -> Prop) (e : effect) : P e -> emits P (log e).
Proof.
  intros He s. exists [e]. split; [reflexivity | now constructor].
Qed.

Lemma emits_call (P : effect -> Prop) (f : callable) (args : list value) :
  P (Called f args) -> emits P (call f args).
Proof.
  intros Hp. apply emits_bind; [now apply emits_log|].
  intros _. now apply emits_silent.
Qed.

Lemma emits_for_each (P : effect -> Prop) (events : list string)
    (body : string -> M value) :
  (forall event, emits P (body event)) -> emits P (for_each events body).
Proof.
  intros Hbody. induction events as [|event rest IH]; cbn [for_each].
  - now apply emits_silent.
  - apply emits_bind; [apply Hbody | intros _; exact IH].
Qed.

Section RouterEffects.

Variables (clock : nat -> Z) (text_first : bool) (bot : Bot).

Let cache_free (e : effect) : Prop := on_cache e = false.

Ltac emits_steps :=
  repeat first
    [ apply emits_bind; [|intros ?]
    | apply emits_call; reflexivity
    | apply emits_log; reflexivity
    | match goal with
      | |- emits _ (match ?x with _ => _ end) => destruct x
      end
    | solve [apply emits_silent; intros ?; reflexivity]
    | progress unfold author_userId, subscript_content, reply, set_cooldown,
        fetch_cooldown, fetch_command, time ].

Lemma set_cooldown_cache_free (command_name : string) (seconds : Z)
    (user : string) :
  emits cache_free (set_cooldown clock command_name seconds user).
Proof.
  intros s. eexists [_]. split; [reflexivity|]. now repeat constructor.
Qed.

Lemma check_cooldown_cache_free (command_name : string) (data : Message)
    (context : Context) :
  emits cache_free (_check_cooldown clock bot command_name data context).
Proof.
  unfold _check_cooldown.
  repeat first
    [ apply set_cooldown_cache_free
    | apply emits_bind; [|intros ?]
    | apply emits_log; reflexivity
    | match goal with
      | |- emits _ (match ?x with _ => _ end) => destruct x
      end
    | solve [apply emits_silent; intros ?; reflexivity]
    | progress unfold author_userId, reply, fetch_cooldown, fetch_command ].
Qed.

Lemma handle_all_events_cache_free (event : string) (data : Message)
    (context : Context) :
  emits cache_free (_handle_all_events bot event data context).
Proof. unfold _handle_all_events. emits_steps. Qed.

Lemma handle_command_cache_free (data : Message) (context : Context) :
  emits cache_free (_handle_command clock text_first bot data context).
Proof.
  unfold _handle_command. apply emits_bind; [emits_steps|].
  intros text. cbv zeta.
  repeat match goal with
         | |- emits _ (if ?b then _ else _) => destruct b
         end;
    repeat first
      [ apply check_cooldown_cache_free
      | apply emits_for_each; intros ?; apply handle_all_events_cache_free
      | apply emits_bind; [|intros ?]
      | apply emits_call; reflexivity
      | apply emits_log; reflexivity
      | solve [apply emits_silent; intros ?; reflexivity]
      | match goal with
        | |- emits _ (if ?b then _ else _) => destruct b
        end
      | progress unfold reply, fetch_command ].
Qed.

End RouterEffects.

(** X9.  The router's own code performs no operation on the reply-wait
    cache: whatever the message, the registered commands and handlers and
    the path taken, the effects that [_handle_command] issues are replies,
    cooldown records and handler calls, never a [get], [clear] or [add].
    (What a called handler does in its body is the handler's.) *)
Theorem router_issues_no_cache_operation (clock : nat -> Z)
    (text_first : bool) (bot : Bot) (data : Message) (context : Context)
    (s : State) :
  exists ext : list effect,
    trace (snd (_handle_command clock text_first bot data context s))
    = trace s ++ ext
    /\ Forall (fun e => on_cache e = false) ext.
Proof. apply handle_command_cache_free. Qed.

(** The cache a dispatch leaves is the one its recording step leaves. *)
Lemma dispatch_cache (clock : nat -> Z) (text_first : bool) (bot : Bot)
    (event : string) (data : Message) (s : State) :
  wait_for (snd (_handle_event clock text_first bot event data s))
  = if String.eqb event "text_message" then
      match content data with
      | Some text =>
          if intents bot
             && negb (command_exists bot
                        (PyStr.first_token
                           (PyStr.drop (PyStr.len (command_prefix bot))
                              text)))
          then match author data with
               | Some a =>
                   wait_for (snd (_add_cache clock (chatId data) (userId a)
                                    text s))
               | None => wait_for s
               end
          else wait_for s
      | None => wait_for s
      end
    else wait_for s.
Proof.
  unfold _handle_event. rewrite snd_suppress.
  destruct (String.eqb_spec event "text_message") as [->|Hne].
  2:{ apply (keeps_bind wait_for (ret tt)); [now intros ?|intros _].
      now apply direct_part_keeps. }
  unfold subscript_content. destruct (content data) as [text|]; [|reflexivity].
  cbv zeta.
  set (known := command_exists bot _).
  set (tail := fun _ : unit =>
                 (_handle_command clock text_first bot data
                    (mkContext (intents bot) data) ;;; ret tt) ;;;
                 match _events bot !! "text_message" with
                 | Some handler =>
                     let context := mkContext (intents bot) data in
                     if existsb (String.eqb "text_message") raw_events
                     then call handler [VData data]
                     else _handle_all_events bot "text_message" data context
                 | None => ret VNone
                 end).
  assert (Htail : forall u, keeps wait_for (tail u)).
  { intros u. unfold tail. apply keeps_bind.
    - apply keeps_bind; [apply handle_command_keeps_cache|].
      intros _. now intros ?.
    - intros _. now apply direct_part_keeps. }
  assert (Hshape : forall (rec : M unit) s0,
             wait_for (snd (((text0 <- ret text ;;
                              rec ;;; _handle_command clock text_first bot data
                                        (mkContext (intents bot) data) ;;;
                              ret tt) ;;;
                             match _events bot !! "text_message" with
                             | Some handler =>
                                 let context := mkContext (intents bot) data in
                                 if existsb (String.eqb "text_message") raw_events
                                 then call handler [VData data]
                                 else _handle_all_events bot "text_message"
                                        data context
                             | None => ret VNone
                             end) s0))
             = wait_for (snd (rec s0))).
  { intros rec s0. cbn [bind ret].
    destruct (rec s0) as [[u|e] s1] eqn:Hrec; cbn [snd]; [|reflexivity].
    specialize (Htail tt s1). unfold tail in Htail. cbn [bind ret] in Htail.
    exact Htail. }
  set (rec := if intents bot && negb known
              then user <- author_userId data ;;
                   _add_cache clock (chatId data) user text
              else ret tt).
  transitivity (wait_for (snd (rec s))); [exact (Hshape rec s)|].
  unfold rec.
  destruct (intents bot && negb known); [|reflexivity].
  unfold author_userId. destruct (author data) as [a|]; reflexivity.
Qed.

(** A text that invokes no command and is not the help request goes to
    the generic handlers, when there is one. *)
Lemma handle_command_unmatched (clock : nat -> Z) (text_first : bool)
    (bot : Bot) (data : Message) (context : Context) (text : string)
    (s : State) :
  content data = Some text ->
  unmatched bot text ->
  text <> command_prefix bot +:+ "help" ->
  _handle_command clock text_first bot data context s
  = (if existsb (fun event => mem event (_events bot)) (text_events text_first)
     then for_each (text_events text_first)
            (fun event => _handle_all_events bot event data context) ;;;
          ret VNone
     else ret VNone) s.
Proof.
  intros Hcontent Hun Hhelp.
  unfold _handle_command, subscript_content. rewrite Hcontent.
  cbn [bind ret].
  assert (Hcond : negb (command_exists bot
                          (PyStr.first_token
                             (PyStr.drop (PyStr.len (command_prefix bot))
                                text)))
                  || negb (String.eqb (command_prefix bot)
                             (PyStr.take (PyStr.len (command_prefix bot))
                                text)) = true).
  { destruct Hun as [-> | Hne]; [reflexivity|].
    apply orb_true_iff. right. apply negb_true_iff, String.eqb_neq.
    congruence. }
  rewrite Hcond. apply String.eqb_neq in Hhelp. rewrite Hhelp.
  now rewrite andb_false_r.
Qed.

Lemma add_cache_returns (clock : nat -> Z) (chat user text : string)
    (s : State) :
  fst (_add_cache clock chat user text s) = Ok tt.
Proof.
  unfold _add_cache, Cache_get, Cache_clear, Cache_add, bind, time, ret.
  cbn [tock tick wait_for cooldowns trace].
  destruct (live (clock (tick s)) (wait_for s !! cache_key chat user));
    cbn [tock tick wait_for cooldowns trace];
    match goal with
    | |- context [live ?now ?entry] => now destruct (live now entry)
    end.
Qed.

(** The steps of the dispatch of a text message: the recording step, run
    when intents are on and the token names no command, and then the
    router and the direct dispatch, from the state the recording left. *)
Lemma text_message_steps (clock : nat -> Z) (text_first : bool) (bot : Bot)
    (data : Message) (text : string) (s : State) :
  content data = Some text ->
  _handle_event clock text_first bot "text_message" data s
  = if intents bot
       && negb (command_exists bot
                  (PyStr.first_token
                     (PyStr.drop (PyStr.len (command_prefix bot)) text)))
    then match author data with
         | Some a =>
             route_and_dispatch clock text_first bot data
               (snd (_add_cache clock (chatId data) (userId a) text s))
         | None => (Raise AttributeError, s)
         end
    else route_and_dispatch clock text_first bot data s.
Proof.
  intros Hcontent.
  unfold _handle_event, route_and_dispatch, suppress_KeyError,
    subscript_content, author_userId.
  rewrite Hcontent.
  cbn [String.eqb Ascii.eqb Bool.eqb andb bind ret existsb raw_events orb].
  destruct (intents bot && negb _).
  - destruct (author data) as [a|]; [|reflexivity]. cbn [bind ret].
    pose proof (add_cache_returns clock (chatId data) (userId a) text s)
      as Hret.
    destruct (_add_cache clock (chatId data) (userId a) text s)
      as [[[]|e] s1]; [|discriminate Hret]. cbn [snd].
    destruct (_handle_command clock text_first bot data
                (mkContext (intents bot) data) s1) as [[v|e] s2];
      [|now destruct e].
    now destruct (_events bot !! "text_message").
  - cbn [bind ret].
    destruct (_handle_command clock text_first bot data
                (mkContext (intents bot) data) s) as [[v|e] s2];
      [|now destruct e].
    now destruct (_events bot !! "text_message").
Qed.

(** X10.  A text that does not begin with the prefix, but whose text
    after its first [len(prefix)] code points begins with the name or
    alias of a command (["?ping"] under the prefix ["!"]), is lost to a
    waiter and is no invocation either: the dispatcher skips the
    recording step and goes straight to the router, and the router
    forwards the text to the generic handlers like any other text. *)
Theorem command_like_text_is_not_recorded (clock : nat -> Z)
    (text_first : bool) (bot : Bot) (data : Message) (text : string)
    (s : State) :
  content data = Some text ->
  command_exists bot
    (PyStr.first_token (PyStr.drop (PyStr.len (command_prefix bot)) text))
  = true ->
  PyStr.take (PyStr.len (command_prefix bot)) text <> command_prefix bot ->
  _handle_event clock text_first bot "text_message" data s
  = route_and_dispatch clock text_first bot data s
  /\ forall (context : Context) (s' : State),
      _handle_command clock text_first bot data context s'
      = (if existsb (fun event => mem event (_events bot))
              (text_events text_first)
         then for_each (text_events text_first)
                (fun event => _handle_all_events bot event data context) ;;;
              ret VNone
         else ret VNone) s'.
Proof.
  intros Hc Hk Hp. split.
  - rewrite (text_message_steps clock text_first bot data text s Hc), Hk.
    now rewrite andb_false_r.
  - intros context s'.
    apply (handle_command_unmatched clock text_first bot data context text
             s' Hc).
    + now right.
    + intros ->. apply Hp. now apply take_app.
Qed.

Lemma command_like_text_is_not_recorded_witness :
  let bot := mkBot "!" true ∅ (_commands Examples.ping_bot) in
  _handle_event Examples.seconds_clock true bot "text_message"
    (Examples.text "?ping") Examples.fresh
  = route_and_dispatch Examples.seconds_clock true bot
      (Examples.text "?ping") Examples.fresh
  /\ forall (context : Context) (s' : State),
      _handle_command Examples.seconds_clock true bot
        (Examples.text "?ping") context s'
      = (Ok VNone, s').
Proof.
  intros bot.
  apply (command_like_text_is_not_recorded Examples.seconds_clock true
           bot (Examples.text "?ping") "?ping" Examples.fresh).
  - reflexivity.
  - reflexivity.
  - discriminate.
Defined.

(** With intents on, ["?ping"] under the prefix ["!"] leaves no trace at
    all, where ["?pong"], which names no command, is recorded. *)
Example question_ping_is_lost :
  let bot := mkBot "!" true ∅ (_commands Examples.ping_bot) in
  _handle_event Examples.seconds_clock true bot "text_message"
    (Examples.text "?ping") Examples.fresh
  = (Ok VNone, Examples.fresh)
  /\ wait_for (snd (_handle_event Examples.seconds_clock true bot
                      "text_message" (Examples.text "?pong") Examples.fresh))
     = {[ cache_key "chat1" "userA" := ("?pong", 91000000) ]}.
Proof. split; reflexivity. Qed.

(** The dispatcher cuts by code points: under the prefix ["!!"] the text
    ["éping"] loses its two first code points and is left with ["ing"],
    which names no command, so the text is recorded; under the prefix
    ["!"] it is left with ["ping"], and is not recorded. *)
Example accented_text_is_cut_by_code_points :
  let long := mkBot "!!" true ∅ (_commands Examples.ping_bot) in
  let short := mkBot "!" true ∅ (_commands Examples.ping_bot) in
  wait_for (snd (_handle_event Examples.seconds_clock true long
                   "text_message" (Examples.text "éping") Examples.fresh))
  = {[ cache_key "chat1" "userA" := ("éping", 91000000) ]}
  /\ wait_for (snd (_handle_event Examples.seconds_clock true short
                      "text_message" (Examples.text "éping") Examples.fresh))
     = ∅.
Proof. split; reflexivity. Qed.

(** X11.  With intents disabled no dispatch changes the reply-wait cache,
    whatever the event. *)
Theorem no_intents_no_recording (clock : nat -> Z) (text_first : bool)
    (bot : Bot) (event : string) (data : Message) (s : State) :
  intents bot = false ->
  wait_for (snd (_handle_event clock text_first bot event data s))
  = wait_for s.
Proof.
  intros Hi. rewrite dispatch_cache, Hi.
  destruct (String.eqb event "text_message"); [|reflexivity].
  now destruct (content data).
Qed.

Lemma no_intents_no_recording_witness :
  wait_for (snd (_handle_event Examples.seconds_clock true
                   Examples.console_bot "text_message"
                   (Examples.text "hello") Examples.two_waiting))
  = wait_for Examples.two_waiting.
Proof.
  apply (no_intents_no_recording Examples.seconds_clock true
           Examples.console_bot "text_message" (Examples.text "hello")
           Examples.two_waiting).
  reflexivity.
Defined.

(** ** Recording a reply *)

Lemma cache_add_stores (clock : nat -> Z) (key text : string) (expire : Z)
    (s : State) :
  live (clock (tick s)) (wait_for s !! key) = None ->
  Cache_add clock key text expire s
  = (Ok true,
     mkState (S (tick s)) (cooldowns s)
       (<[key := (text, clock (tick s) + expire * us_per_second)]> (wait_for s))
       (trace s ++
        [CacheAdd key text (clock (tick s) + expire * us_per_second)])).
Proof.
  intros Hnone. unfold Cache_add, bind, time, tock.
  cbn [wait_for tick cooldowns trace]. now rewrite Hnone.
Qed.

Lemma add_cache_run (clock : nat -> Z) (chat user text : string)
    (s : State) :
  clock (tick s) <= clock (S (tick s)) ->
  exists (m : gmap string (string * Z)) (added : list effect),
    _add_cache clock chat user text s
    = (Ok tt,
       mkState (S (S (tick s))) (cooldowns s)
         (<[cache_key chat user :=
              (text, clock (S (tick s)) + 90 * us_per_second)]> m)
         (trace s ++ added)).
Proof.
  intros Hmono. unfold _add_cache.
  set (key := cache_key chat user).
  assert (Hget : Cache_get clock key s
                 = (Ok (live (clock (tick s)) (wait_for s !! key)),
                    mkState (S (tick s)) (cooldowns s) (wait_for s)
                      (trace s ++
                       [CacheGet key
                          (live (clock (tick s)) (wait_for s !! key))])))
    by reflexivity.
  unfold bind at 1. rewrite Hget.
  destruct (live (clock (tick s)) (wait_for s !! key)) as [v|] eqn:Hfound.
  - unfold bind at 1. unfold Cache_clear at 1. cbn beta iota.
    unfold bind at 1. rewrite cache_add_stores;
      [|cbn [wait_for]; now rewrite lookup_empty].
    cbn [ret tick wait_for cooldowns trace]. eexists _, [_; _; _].
    now rewrite <- !app_assoc.
  - unfold bind at 1. unfold ret at 1. cbn beta iota.
    unfold bind at 1. rewrite cache_add_stores.
    + cbn [ret tick wait_for cooldowns trace]. eexists _, [_; _].
      now rewrite <- !app_assoc.
    + cbn [tick wait_for].
      destruct (wait_for s !! key) as [[v e]|]; [|reflexivity].
      cbn [live] in *.
      destruct (Z.ltb_spec (clock (tick s)) e); [discriminate|].
      now destruct (Z.ltb_spec (clock (S (tick s))) e); [lia|].
Qed.

Lemma add_cache_entry (clock : nat -> Z) (chat user text : string)
    (s : State) :
  clock (tick s) <= clock (S (tick s)) ->
  tick (snd (_add_cache clock chat user text s)) = S (S (tick s))
  /\ wait_for (snd (_add_cache clock chat user text s))
       !! cache_key chat user
     = Some (text, clock (S (tick s)) + 90 * us_per_second).
Proof.
  intros Hmono.
  destruct (add_cache_run clock chat user text s Hmono) as (m & added & ->).
  cbn [snd tick wait_for]. split; [reflexivity | apply lookup_insert_eq].
Qed.

(** X12.  Recording a text for (chat, user) when the clock does not run
    backwards between the two readings of [_add_cache]: whatever the cache
    held for that key (nothing, an expired entry, an unread one), it then
    holds the new text; the next [get] of the key returns the text when
    its reading is less than 90 seconds after the reading of the [add],
    and [None] from then on. *)
Theorem recorded_text_lives_90_seconds (clock : nat -> Z)
    (chat user text : string) (s : State) :
  clock (tick s) <= clock (S (tick s)) ->
  let s' := snd (_add_cache clock chat user text s) in
  wait_for s' !! cache_key chat user
  = Some (text, clock (S (tick s)) + 90 * us_per_second)
  /\ fst (Cache_get clock (cache_key chat user) s')
     = Ok (if clock (S (S (tick s)))
              <? clock (S (tick s)) + 90 * us_per_second
           then Some text else None).
Proof.
  intros Hmono s'. destruct (add_cache_entry clock chat user text s Hmono)
    as [Htick Hentry].
  split; [exact Hentry|].
  change (fst (Cache_get clock (cache_key chat user) s'))
    with (@Ok (option string)
            (live (clock (tick s')) (wait_for s' !! cache_key chat user))).
  unfold s'. now rewrite Hentry, Htick.
Qed.

Lemma recorded_text_lives_90_seconds_witness :
  let s' := snd (_add_cache Examples.seconds_clock "chat1" "userA" "again"
                   Examples.two_waiting) in
  wait_for s' !! cache_key "chat1" "userA"
  = Some ("again", Examples.seconds_clock 1 + 90 * us_per_second)
  /\ fst (Cache_get Examples.seconds_clock (cache_key "chat1" "userA") s')
     = Ok (if Examples.seconds_clock 2
              <? Examples.seconds_clock 1 + 90 * us_per_second
           then Some "again" else None).
Proof.
  apply (recorded_text_lives_90_seconds Examples.seconds_clock
           "chat1" "userA" "again" Examples.two_waiting).
  vm_compute. discriminate.
Defined.

(** X13.  With intents enabled, a text message with an author whose first
    token after [len(prefix)] code points names no command is recorded
    before anything else is done with it, when the clock does not run
    backwards between the two readings of [_add_cache]: the dispatch is
    the recording step followed by the router and the direct dispatch,
    and these start from a state in which the cache holds the text under
    (chat, author), expiring 90 seconds after the reading of the [add].
    (What the handlers called from there do to the cache is theirs.) *)
Theorem unknown_text_is_recorded_first (clock : nat -> Z) (text_first : bool)
    (bot : Bot) (data : Message) (text : string) (a : MessageAuthor)
    (s : State) :
  intents bot = true ->
  content data = Some text ->
  author data = Some a ->
  command_exists bot
    (PyStr.first_token (PyStr.drop (PyStr.len (command_prefix bot)) text))
  = false ->
  clock (tick s) <= clock (S (tick s)) ->
  let s1 := snd (_add_cache clock (chatId data) (userId a) text s) in
  _handle_event clock text_first bot "text_message" data s
  = route_and_dispatch clock text_first bot data s1
  /\ tick s1 = S (S (tick s))
  /\ wait_for s1 !! cache_key (chatId data) (userId a)
     = Some (text, clock (S (tick s)) + 90 * us_per_second).
Proof.
  intros Hi Hc Ha Hk Hmono s1. split.
  - rewrite (text_message_steps clock text_first bot data text s Hc).
    now rewrite Hi, Hk, Ha.
  - now apply add_cache_entry.
Qed.

Lemma unknown_text_is_recorded_first_witness :
  let bot := mkBot "!" true ∅ (_commands Examples.ping_bot) in
  let s1 := snd (_add_cache Examples.seconds_clock "chat1" "userA" "$verify"
                   Examples.fresh) in
  _handle_event Examples.seconds_clock true bot "text_message"
    (Examples.text "$verify") Examples.fresh
  = route_and_dispatch Examples.seconds_clock true bot
      (Examples.text "$verify") s1
  /\ tick s1 = 2%nat
  /\ wait_for s1 !! cache_key "chat1" "userA" = Some ("$verify", 91000000).
Proof.
  intros bot.
  apply (unknown_text_is_recorded_first Examples.seconds_clock true
           bot (Examples.text "$verify") "$verify" Examples.alice
           Examples.fresh).
  - reflexivity.
  - reflexivity.
  - reflexivity.
  - reflexivity.
  - vm_compute. discriminate.
Defined.

(** ** More on waiting *)

Section WaitingMore.

Variable clock : nat -> Z.
Variable others : nat -> gmap string (string * Z) -> gmap string (string * Z).
Variables (self : Context) (message : string) (timeout : Z).

Lemma wait_enters (fuel : nat) (s : State) :
  ctx_intents self = true ->
  wait_for_message clock others self message timeout fuel s
  = poll clock others self message timeout (clock (tick s)) fuel 0 (tock s).
Proof. intros Hi. unfold wait_for_message. now rewrite Hi. Qed.

End WaitingMore.

(** X14.  A text recorded before the wait began satisfies it: when the
    cache already holds the awaited text for the key, unexpired at the
    first poll, and the first loop test is inside the timeout, the call
    returns the triggering message after that one poll. *)
Theorem stale_reply_satisfies_wait (clock : nat -> Z)
    (others : nat -> gmap string (string * Z) -> gmap string (string * Z))
    (self : Context) (message : string) (timeout : Z) (a : MessageAuthor)
    (expire_time : Z) (fuel : nat) (s : State) :
  ctx_intents self = true ->
  author (ctx_message self) = Some a ->
  let key := cache_key (chatId (ctx_message self)) (userId a) in
  others 0%nat (wait_for s) = wait_for s ->
  wait_for s !! key = Some (message, expire_time) ->
  clock (S (S (tick s))) < expire_time ->
  clock (S (tick s)) - clock (tick s) < timeout * us_per_second ->
  wait_for_message clock others self message timeout (S fuel) s
  = Some (Ok (VData (ctx_message self)),
          mkState (S (S (S (tick s)))) (cooldowns s) ∅
            (trace s ++ [CacheGet key (Some message); CacheClear])).
Proof.
  intros Hi Ha key Hidle Hheld Hlive Hin.
  rewrite (wait_enters _ _ _ _ _ _ _ Hi), (poll_turn _ _ _ _ _ _ a Ha).
  cbn [tock tick wait_for]. apply Z.ltb_lt in Hin. rewrite Hin. cbv zeta.
  fold key. rewrite Hidle, Hheld. cbn [live].
  apply Z.ltb_lt in Hlive. rewrite Hlive. cbn [same_text].
  rewrite String.eqb_refl. unfold cleared, polled.
  cbn [tock tick cooldowns wait_for trace]. now rewrite <- app_assoc.
Qed.

Lemma stale_reply_satisfies_wait_witness :
  wait_for_message Examples.tenths_clock Examples.idle
    (mkContext true (mkMessage (Some "joined") "chat2" 1
                       (Some (mkAuthor "Bob" "userB"))))
    "$verify" 2 1 Examples.two_waiting
  = Some (Ok (VData (mkMessage (Some "joined") "chat2" 1
                       (Some (mkAuthor "Bob" "userB")))),
          mkState 3 ∅ ∅
            [CacheGet (cache_key "chat2" "userB") (Some "$verify");
             CacheClear]).
Proof.
  apply (stale_reply_satisfies_wait Examples.tenths_clock Examples.idle
           (mkContext true (mkMessage (Some "joined") "chat2" 1
                              (Some (mkAuthor "Bob" "userB"))))
           "$verify" 2 (mkAuthor "Bob" "userB") 90000000 0
           Examples.two_waiting).
  - reflexivity.
  - reflexivity.
  - reflexivity.
  - reflexivity.
  - reflexivity.
  - reflexivity.
Defined.

(** X15.  When the first loop test already finds the timeout elapsed (as
    for a timeout of zero or less on a clock that does not run backwards),
    the call returns [None] without a single poll, also when the awaited
    text is in the cache, and clears the cache. *)
Theorem elapsed_timeout_never_polls (clock : nat -> Z)
    (others : nat -> gmap string (string * Z) -> gmap string (string * Z))
    (self : Context) (message : string) (timeout : Z) (a : MessageAuthor)
    (fuel : nat) (s : State) :
  ctx_intents self = true ->
  author (ctx_message self) = Some a ->
  timeout * us_per_second <= clock (S (tick s)) - clock (tick s) ->
  wait_for_message clock others self message timeout (S fuel) s
  = Some (Ok VNone,
          mkState (S (S (tick s))) (cooldowns s) ∅ (trace s ++ [CacheClear])).
Proof.
  intros Hi Ha Hout.
  rewrite (wait_enters _ _ _ _ _ _ _ Hi), (poll_turn _ _ _ _ _ _ a Ha).
  cbn [tock tick]. now destruct (Z.ltb_spec (clock (S (tick s)) - clock (tick s))
                                   (timeout * us_per_second)); [lia|].
Qed.

Lemma elapsed_timeout_never_polls_witness :
  wait_for_message Examples.tenths_clock Examples.idle
    (mkContext true (Examples.text "joined")) "hi" 0 1 Examples.two_waiting
  = Some (Ok VNone, mkState 2 ∅ ∅ [CacheClear]).
Proof.
  apply (elapsed_timeout_never_polls Examples.tenths_clock Examples.idle
           (mkContext true (Examples.text "joined")) "hi" 0 Examples.alice 0
           Examples.two_waiting).
  - reflexivity.
  - reflexivity.
  - vm_compute. discriminate.
Defined.

(** X16.  With intents enabled but a triggering message without an
    author, the call raises [AttributeError] when it first builds the
    cache key, in the first turn of the loop or at the clear after it;
    the cache is neither read nor cleared. *)
Theorem wait_needs_author (clock : nat -> Z)
    (others : nat -> gmap string (string * Z) -> gmap string (string * Z))
    (self : Context) (message : string) (timeout : Z) (fuel : nat)
    (s : State) :
  ctx_intents self = true ->
  author (ctx_message self) = None ->
  exists s' : State,
    wait_for_message clock others self message timeout (S fuel) s
    = Some (Raise AttributeError, s')
    /\ trace s' = trace s.
Proof.
  intros Hi Ha. rewrite (wait_enters _ _ _ _ _ _ _ Hi).
  cbn [poll]. unfold own_key, author_userId. rewrite Ha.
  destruct (clock (tick (tock s)) - clock (tick s) <? timeout * us_per_second);
    eexists; split; reflexivity.
Qed.

Lemma wait_needs_author_witness :
  exists s' : State,
    wait_for_message Examples.tenths_clock Examples.idle
      (mkContext true (Examples.anonymous "joined")) "$verify" 2 1
      Examples.fresh
    = Some (Raise AttributeError, s')
    /\ trace s' = trace Examples.fresh.
Proof.
  apply (wait_needs_author Examples.tenths_clock Examples.idle
           (mkContext true (Examples.anonymous "joined")) "$verify" 2 0
           Examples.fresh).
  - reflexivity.
  - reflexivity.
Defined.

(** X17.  Dispatcher and waiter together.  The receiving thread
    dispatches a text message of the awaited user in the awaited chat
    whose content is the awaited text (intents on, the text naming no
    command, its clock not running backwards between the two readings of
    the recording): that dispatch begins with the recording step.  When
    the waiter's first poll comes right after that step, inside the
    timeout and less than 90 seconds after the recording,
    [wait_for_message] returns the message that triggered the wait,
    after this one poll. *)
Theorem reply_reaches_waiter (clock clock_d : nat -> Z) (text_first : bool)
    (bot : Bot)
    (others : nat -> gmap string (string * Z) -> gmap string (string * Z))
    (self : Context) (message : string) (timeout : Z)
    (a a' : MessageAuthor) (reply : Message) (sd : State) (fuel : nat)
    (s : State) :
  ctx_intents self = true ->
  author (ctx_message self) = Some a ->
  intents bot = true ->
  content reply = Some message ->
  author reply = Some a' ->
  userId a' = userId a ->
  chatId reply = chatId (ctx_message self) ->
  command_exists bot
    (PyStr.first_token
       (PyStr.drop (PyStr.len (command_prefix bot)) message)) = false ->
  clock_d (tick sd) <= clock_d (S (tick sd)) ->
  others 0%nat = recorded clock_d reply (userId a') message sd ->
  clock (S (tick s)) - clock (tick s) < timeout * us_per_second ->
  clock (S (S (tick s))) < clock_d (S (tick sd)) + 90 * us_per_second ->
  let key := cache_key (chatId (ctx_message self)) (userId a) in
  (forall m : gmap string (string * Z),
      let sd' := mkState (tick sd) (cooldowns sd) m (trace sd) in
      _handle_event clock_d text_first bot "text_message" reply sd'
      = route_and_dispatch clock_d text_first bot reply
          (snd (_add_cache clock_d (chatId reply) (userId a') message sd'))
      /\ wait_for (snd (_add_cache clock_d (chatId reply) (userId a')
                          message sd'))
         = recorded clock_d reply (userId a') message sd m)
  /\ wait_for_message clock others self message timeout (S fuel) s
     = Some (Ok (VData (ctx_message self)),
             mkState (S (S (S (tick s)))) (cooldowns s) ∅
               (trace s ++ [CacheGet key (Some message); CacheClear])).
Proof.
  intros Hi Ha Hbi Hc Ha' Hu Hchat Hk Hmono Hothers Hin Hlive key. split.
  - intros m sd'. split; [|reflexivity].
    rewrite (text_message_steps clock_d text_first bot reply message sd' Hc).
    now rewrite Hbi, Hk, Ha'.
  - rewrite (wait_enters _ _ _ _ _ _ _ Hi), (poll_turn _ _ _ _ _ _ a Ha).
    cbn [tock tick wait_for]. apply Z.ltb_lt in Hin. rewrite Hin. cbv zeta.
    fold key. rewrite Hothers. unfold recorded.
    destruct (add_cache_entry clock_d (chatId reply) (userId a') message
                (mkState (tick sd) (cooldowns sd) (wait_for s) (trace sd))
                Hmono) as [_ Hentry].
    rewrite Hchat, Hu in Hentry. fold key in Hentry.
    rewrite Hchat, Hu. cbn [tick] in Hentry. rewrite Hentry. cbn [live].
    apply Z.ltb_lt in Hlive. rewrite Hlive. cbn [same_text].
    rewrite String.eqb_refl. unfold cleared, polled.
    cbn [tock tick cooldowns wait_for trace]. now rewrite <- app_assoc.
Qed.

Lemma reply_reaches_waiter_witness :
  let bot := mkBot "!" true ∅ (_commands Examples.ping_bot) in
  let others (k : nat) :=
    if Nat.eqb k 0
    then recorded Examples.seconds_clock (Examples.text "$verify")
           "userA" "$verify" Examples.fresh
    else fun m => m in
  (forall m : gmap string (string * Z),
      let sd' := mkState 0 ∅ m [] in
      _handle_event Examples.seconds_clock true bot "text_message"
        (Examples.text "$verify") sd'
      = route_and_dispatch Examples.seconds_clock true bot
          (Examples.text "$verify")
          (snd (_add_cache Examples.seconds_clock "chat1" "userA" "$verify"
                  sd'))
      /\ wait_for (snd (_add_cache Examples.seconds_clock "chat1" "userA"
                          "$verify" sd'))
         = recorded Examples.seconds_clock (Examples.text "$verify")
             "userA" "$verify" Examples.fresh m)
  /\ wait_for_message Examples.tenths_clock others
       (mkContext true (Examples.text "joined")) "$verify" 2 1 Examples.fresh
     = Some (Ok (VData (Examples.text "joined")),
             mkState 3 ∅ ∅
               [CacheGet (cache_key "chat1" "userA") (Some "$verify");
                CacheClear]).
Proof.
  intros bot others.
  apply (reply_reaches_waiter Examples.tenths_clock Examples.seconds_clock
           true bot others
           (mkContext true (Examples.text "joined")) "$verify" 2
           Examples.alice Examples.alice (Examples.text "$verify")
           Examples.fresh 0 Examples.fresh).
  - reflexivity.
  - reflexivity.
  - reflexivity.
  - reflexivity.
  - reflexivity.
  - reflexivity.
  - reflexivity.
  - reflexivity.
  - vm_compute. discriminate.
  - reflexivity.
  - reflexivity.
  - reflexivity.
Defined.

(** ** More on cooldowns *)

(** X18.  A routed invocation changes at most one cooldown record, the one
    of (canonical command name, invoking user): the record of any other
    user, and of the same user for any other command, reads after it as
    before it. *)
Theorem cooldown_is_per_command_and_user (clock : nat -> Z)
    (text_first : bool) (bot : Bot) (data : Message) (context : Context)
    (token rest text : string) (c : Command) (a : MessageAuthor)
    (other_name other_user : string) (s : State) :
  content data = Some text ->
  invokes (command_prefix bot) token rest text ->
  command_exists bot token = true ->
  CommandTable.fetch_command (_commands bot) (canonical bot token) = Ok c ->
  author data = Some a ->
  ctx_message context = data ->
  (other_name, other_user) <> (canonical bot token, userId a) ->
  CommandTable.fetch_cooldown
    (cooldowns (snd (_handle_command clock text_first bot data context s)))
    other_name other_user
  = CommandTable.fetch_cooldown (cooldowns s) other_name other_user.
Proof.
  intros Hcontent Hinv Hex Hfetch Ha Hctx Hother.
  destruct (Z_le_gt_dec (cooldown c) 0) as [Hfree|Hpos].
  - now erewrite routed_free by eassumption.
  - destruct (Z_lt_le_dec (clock (tick s))
                (CommandTable.fetch_cooldown (cooldowns s)
                   (canonical bot token) (userId a))) as [Hb|Hb].
    + now erewrite routed_blocked by (eassumption || lia).
    + erewrite routed_refreshed by (eassumption || lia).
      cbn [snd cooldowns]. unfold CommandTable.fetch_cooldown.
      rewrite lookup_insert_ne; [reflexivity | congruence].
Qed.

Lemma cooldown_is_per_command_and_user_witness :
  CommandTable.fetch_cooldown
    (cooldowns (snd (_handle_command Examples.seconds_clock true
                       Examples.slow_bot (Examples.text "!p now")
                       (mkContext false (Examples.text "!p now"))
                       Examples.fresh)))
    "ping" "userB"
  = CommandTable.fetch_cooldown (cooldowns Examples.fresh) "ping" "userB".
Proof.
  apply (cooldown_is_per_command_and_user Examples.seconds_clock true
           Examples.slow_bot (Examples.text "!p now")
           (mkContext false (Examples.text "!p now"))
           "p" "now" "!p now" Examples.slow_ping Examples.alice
           "ping" "userB" Examples.fresh).
  - reflexivity.
  - repeat (split; [reflexivity|]). right; reflexivity.
  - reflexivity.
  - reflexivity.
  - reflexivity.
  - reflexivity.
  - discriminate.
Defined.

(** X19.  Two invocations in a row by the same user of the same command
    (under any of its names), the first one passing the cooldown check of
    a command with a positive cooldown: the second one is blocked exactly
    when the reading at its check is before the reading at which the
    first one set the record plus the cooldown; blocked, it adds one reply
    to the trace and nothing else, otherwise it sets the record again and
    calls the handler. *)
Theorem second_invocation (clock : nat -> Z) (text_first : bool) (bot : Bot)
    (data data2 : Message) (context context2 : Context)
    (token rest text token2 rest2 text2 : string) (c : Command)
    (a : MessageAuthor) (s : State) :
  content data = Some text ->
  invokes (command_prefix bot) token rest text ->
  command_exists bot token = true ->
  CommandTable.fetch_command (_commands bot) (canonical bot token) = Ok c ->
  author data = Some a ->
  ctx_message context = data ->
  content data2 = Some text2 ->
  invokes (command_prefix bot) token2 rest2 text2 ->
  command_exists bot token2 = true ->
  canonical bot token2 = canonical bot token ->
  author data2 = Some a ->
  ctx_message context2 = data2 ->
  0 < cooldown c ->
  CommandTable.fetch_cooldown (cooldowns s) (canonical bot token) (userId a)
  <= clock (tick s) ->
  let s1 := snd (_handle_command clock text_first bot data context s) in
  let expiry := clock (S (tick s)) + cooldown c * us_per_second in
  let second := _handle_command clock text_first bot data2 context2 s1 in
  tick s1 = S (S (tick s))
  /\ (clock (tick s1) < expiry ->
      fst second = Ok VNone
      /\ cooldowns (snd second) = cooldowns s1
      /\ trace (snd second)
         = trace s1
           ++ [Replied (cooldown_text
                          (Z.quot (expiry - clock (S (tick s1)))
                             us_per_second))])
  /\ (expiry <= clock (tick s1) ->
      fst second = run (func c) (command_args context2 a rest2 c)
      /\ trace (snd second)
         = trace s1
           ++ [CooldownSet (canonical bot token) (userId a)
                 (clock (S (tick s1)) + cooldown c * us_per_second);
               Called (func c) (command_args context2 a rest2 c)]).
Proof.
  intros Hcontent Hinv Hex Hfetch Ha Hctx Hcontent2 Hinv2 Hex2 Hcan Ha2 Hctx2
    Hpos Hexp s1 expiry second.
  assert (Hs1 : s1 = mkState (S (S (tick s)))
                       (<[(canonical bot token, userId a) := expiry]>
                          (cooldowns s))
                       (wait_for s)
                       (trace s ++
                        [CooldownSet (canonical bot token) (userId a) expiry;
                         Called (func c) (command_args context a rest c)])).
  { unfold s1. now erewrite routed_refreshed by eassumption. }
  assert (Hrec : CommandTable.fetch_cooldown (cooldowns s1)
                   (canonical bot token2) (userId a) = expiry).
  { rewrite Hs1, Hcan. unfold CommandTable.fetch_cooldown. cbn [cooldowns].
    now rewrite lookup_insert_eq. }
  assert (Hfetch2 : CommandTable.fetch_command (_commands bot)
                      (canonical bot token2) = Ok c) by now rewrite Hcan.
  split; [now rewrite Hs1|]. split; intros Hb.
  - unfold second.
    erewrite routed_blocked by (try eassumption; now rewrite Hrec).
    rewrite Hrec. now repeat split.
  - unfold second.
    erewrite routed_refreshed by (try eassumption; now rewrite Hrec).
    rewrite Hcan. now repeat split.
Qed.

Lemma second_invocation_witness :
  let context := mkContext false (Examples.text "!ping") in
  let context2 := mkContext false (Examples.text "!p again") in
  let s1 := snd (_handle_command Examples.seconds_clock true Examples.slow_bot
                   (Examples.text "!ping") context Examples.fresh) in
  let expiry := Examples.seconds_clock 1 + 5 * us_per_second in
  let second := _handle_command Examples.seconds_clock true Examples.slow_bot
                  (Examples.text "!p again") context2 s1 in
  tick s1 = 2%nat
  /\ (Examples.seconds_clock (tick s1) < expiry ->
      fst second = Ok VNone
      /\ cooldowns (snd second) = cooldowns s1
      /\ trace (snd second)
         = trace s1
           ++ [Replied (cooldown_text
                          (Z.quot (expiry - Examples.seconds_clock (S (tick s1)))
                             us_per_second))])
  /\ (expiry <= Examples.seconds_clock (tick s1) ->
      fst second
      = run Examples.ping
          (command_args context2 Examples.alice "again" Examples.slow_ping)
      /\ trace (snd second)
         = trace s1
           ++ [CooldownSet "ping" "userA"
                 (Examples.seconds_clock (S (tick s1)) + 5 * us_per_second);
               Called Examples.ping
                 (command_args context2 Examples.alice "again"
                    Examples.slow_ping)]).
Proof.
  apply (second_invocation Examples.seconds_clock true Examples.slow_bot
           (Examples.text "!ping") (Examples.text "!p again")
           (mkContext false (Examples.text "!ping"))
           (mkContext false (Examples.text "!p again"))
           "ping" "" "!ping" "p" "again" "!p again"
           Examples.slow_ping Examples.alice Examples.fresh).
  - reflexivity.
  - repeat (split; [reflexivity|]). left; split; reflexivity.
  - reflexivity.
  - reflexivity.
  - reflexivity.
  - reflexivity.
  - reflexivity.
  - repeat (split; [reflexivity|]). right; reflexivity.
  - reflexivity.
  - reflexivity.
  - reflexivity.
  - reflexivity.
  - reflexivity.
  - vm_compute. discriminate.
Defined.

(** ** Texts that invoke no command *)

(** X20.  A text that invokes no command and is not the help request,
    when nothing is registered for ["text_message"] or
    ["_console_text_message"], with intents disabled: the dispatch does
    nothing at all and returns [None]. *)
Theorem unmatched_text_without_handler (clock : nat -> Z) (text_first : bool)
    (bot : Bot) (data : Message) (text : string) (s : State) :
  intents bot = false ->
  content data = Some text ->
  unmatched bot text ->
  text <> command_prefix bot +:+ "help" ->
  _events bot !! "text_message" = None ->
  _events bot !! "_console_text_message" = None ->
  _handle_event clock text_first bot "text_message" data s = (Ok VNone, s).
Proof.
  intros Hi Hcontent Hun Hhelp Ht Hc.
  assert (Hcmd : _handle_command clock text_first bot data
                   (mkContext (intents bot) data) s = (Ok VNone, s)).
  { rewrite (handle_command_unmatched _ _ _ _ _ text) by assumption.
    unfold text_events, mem. destruct text_first; cbn [existsb];
      now rewrite Ht, Hc. }
  rewrite (text_message_falls_through clock text_first bot data text VNone s s
             Hi Hcontent Hcmd).
  now rewrite Ht.
Qed.

Lemma unmatched_text_without_handler_witness :
  _handle_event Examples.seconds_clock true Examples.slow_bot "text_message"
    (Examples.text "hello there") Examples.two_waiting
  = (Ok VNone, Examples.two_waiting).
Proof.
  apply (unmatched_text_without_handler Examples.seconds_clock true
           Examples.slow_bot (Examples.text "hello there") "hello there"
           Examples.two_waiting).
  - reflexivity.
  - reflexivity.
  - left. reflexivity.
  - discriminate.
  - reflexivity.
  - reflexivity.
Defined.

(** X21.  A text that invokes no command and is not the help request,
    with both generic handlers registered and an author in the payload:
    the router calls both, in the order the process iterates the set,
    each with its parameters resolved by name and [message] bound to the
    whole text, and returns [None]; when the first one raises, the second
    one is not called. *)
Theorem router_forwards_to_both (clock : nat -> Z) (text_first : bool)
    (bot : Bot) (data : Message) (context : Context) (text : string)
    (on_text on_console : callable) (a : MessageAuthor) (s : State) :
  content data = Some text ->
  unmatched bot text ->
  text <> command_prefix bot +:+ "help" ->
  _events bot !! "text_message" = Some on_text ->
  _events bot !! "_console_text_message" = Some on_console ->
  author data = Some a ->
  ctx_message context = data ->
  let args (f : callable) :=
    map (Spec.resolve_by_name context a (VData data)) (parameters f) in
  let first := if text_first then on_text else on_console in
  let second := if text_first then on_console else on_text in
  _handle_command clock text_first bot data context s
  = match run first (args first) with
    | Ok _ =>
        (match run second (args second) with
         | Ok _ => Ok VNone
         | Raise e => Raise e
         end,
         mkState (tick s) (cooldowns s) (wait_for s)
           (trace s ++ [Called first (args first);
                        Called second (args second)]))
    | Raise e =>
        (Raise e,
         mkState (tick s) (cooldowns s) (wait_for s)
           (trace s ++ [Called first (args first)]))
    end.
Proof.
  intros Hcontent Hun Hhelp Ht Hc Ha Hctx args first second.
  rewrite (handle_command_unmatched _ _ _ _ _ text) by assumption.
  assert (Hauth : Context_author context = Some a)
    by (unfold Context_author; now rewrite Hctx).
  assert (Hany : existsb (fun event => mem event (_events bot))
                   (text_events text_first) = true).
  { unfold text_events, mem. destruct text_first; cbn [existsb];
      now rewrite Ht, Hc. }
  rewrite Hany. unfold text_events, first, second.
  destruct text_first; cbn [for_each bind ret]; unfold _handle_all_events;
    rewrite Ht, Hc; cbn [bind lift];
    rewrite !(set_parameters_with_author context _ (VData data) a Hauth);
    fold (args on_text); fold (args on_console);
    cbn [call bind log lift tick cooldowns wait_for trace].
  - destruct (run on_text (args on_text)); [|reflexivity].
    rewrite <- app_assoc. now destruct (run on_console (args on_console)).
  - destruct (run on_console (args on_console)); [|reflexivity].
    rewrite <- app_assoc. now destruct (run on_text (args on_text)).
Qed.

Lemma router_forwards_to_both_witness :
  _handle_command Examples.seconds_clock false Examples.console_bot
    (Examples.text "hello") (mkContext false (Examples.text "hello"))
    Examples.fresh
  = (Ok VNone,
     mkState 0 ∅ ∅
       [Called Examples.on_console
          [VCtx (mkContext false (Examples.text "hello"))];
        Called Examples.on_text
          [VCtx (mkContext false (Examples.text "hello"))]]).
Proof.
  apply (router_forwards_to_both Examples.seconds_clock false
           Examples.console_bot (Examples.text "hello")
           (mkContext false (Examples.text "hello")) "hello"
           Examples.on_text Examples.on_console Examples.alice
           Examples.fresh).
  - reflexivity.
  - left. reflexivity.
  - discriminate.
  - reflexivity.
  - reflexivity.
  - reflexivity.
  - reflexivity.
Defined.

(** X22.  A text that invokes no command and is not the help request,
    with a handler registered for ["text_message"] only: the router's
    loop over the two events raises [KeyError] at the console event.  When
    the process iterates the set with ["text_message"] first, the handler
    has been called by then (and [KeyError] follows its normal return);
    when it iterates the console event first, the handler is not called
    at all. *)
Theorem router_needs_both_handlers (clock : nat -> Z) (text_first : bool)
    (bot : Bot) (data : Message) (context : Context) (text : string)
    (on_text : callable) (a : MessageAuthor) (s : State) :
  content data = Some text ->
  unmatched bot text ->
  text <> command_prefix bot +:+ "help" ->
  _events bot !! "text_message" = Some on_text ->
  _events bot !! "_console_text_message" = None ->
  author data = Some a ->
  ctx_message context = data ->
  let args :=
    map (Spec.resolve_by_name context a (VData data)) (parameters on_text) in
  _handle_command clock text_first bot data context s
  = if text_first then
      (match run on_text args with
       | Ok _ => Raise KeyError
       | Raise e => Raise e
       end,
       mkState (tick s) (cooldowns s) (wait_for s)
         (trace s ++ [Called on_text args]))
    else (Raise KeyError, s).
Proof.
  intros Hcontent Hun Hhelp Ht Hc Ha Hctx args.
  rewrite (handle_command_unmatched _ _ _ _ _ text) by assumption.
  assert (Hauth : Context_author context = Some a)
    by (unfold Context_author; now rewrite Hctx).
  assert (Hany : existsb (fun event => mem event (_events bot))
                   (text_events text_first) = true).
  { unfold text_events, mem. destruct text_first; cbn [existsb];
      rewrite Ht; [reflexivity | apply orb_true_r]. }
  rewrite Hany. unfold text_events.
  destruct text_first; cbn [for_each bind ret]; unfold _handle_all_events;
    rewrite Ht, Hc; cbn [bind lift raise]; [|reflexivity].
  rewrite (set_parameters_with_author context _ (VData data) a Hauth).
  fold args. cbn [call bind log lift].
  now destruct (run on_text args).
Qed.

Lemma router_needs_both_handlers_witness :
  _handle_command Examples.seconds_clock false Examples.chatty_bot
    (Examples.text "hello") (mkContext false (Examples.text "hello"))
    Examples.fresh
  = (Raise KeyError, Examples.fresh).
Proof.
  apply (router_needs_both_handlers Examples.seconds_clock false
           Examples.chatty_bot (Examples.text "hello")
           (mkContext false (Examples.text "hello")) "hello"
           Examples.on_text Examples.alice Examples.fresh).
  - reflexivity.
  - left. reflexivity.
  - discriminate.
  - reflexivity.
  - reflexivity.
  - reflexivity.
  - reflexivity.
Defined.

(** ** Outbound helpers *)

Lemma startswith_app (p x : string) : PyText.startswith p (p +:+ x) = true.
Proof.
  induction p as [|c p IH]; [reflexivity|].
  rewrite String_app_cons. cbn [PyText.startswith].
  now rewrite Ascii.eqb_refl, IH.
Qed.

Lemma replace_skips (old new p x : string) :
  PyText.replace_from old new (String.length p) (p +:+ x)
  = PyText.replace_from old new 0 x.
Proof.
  induction p as [|c p IH]; [reflexivity|].
  rewrite String_app_cons. exact IH.
Qed.

Lemma replace_leading (old new x : string) :
  old <> "" ->
  PyText.replace old new (old +:+ x) = new +:+ PyText.replace old new x.
Proof.
  destruct old as [|c old]; [congruence | intros _].
  unfold PyText.replace. rewrite String_app_cons.
  cbn [PyText.replace_from].
  change (PyText.startswith (String c old) (String c (old +:+ x)))
    with (PyText.startswith (String c old) (String c old +:+ x)).
  rewrite startswith_app.
  replace (String.length (String c old) - 1)%nat with (String.length old)
    by (cbn [String.length]; lia).
  now rewrite replace_skips.
Qed.

Lemma occurs_tail (old : string) (c : ascii) (s : string) :
  PyText.occurs old (String c s) = false ->
  PyText.startswith old (String c s) = false /\ PyText.occurs old s = false.
Proof.
  cbn [PyText.occurs]. intros H. now apply orb_false_iff in H.
Qed.

Lemma replace_absent (old new s : string) :
  PyText.occurs old s = false -> PyText.replace old new s = s.
Proof.
  unfold PyText.replace. induction s as [|c s IH]; [reflexivity|].
  intros H. apply occurs_tail in H as [Hhead Htail].
  cbn [PyText.replace_from]. rewrite Hhead. now rewrite IH.
Qed.

Lemma absent_not_leading (old s : string) :
  PyText.occurs old s = false -> PyText.startswith old s = false.
Proof.
  destruct s as [|c s]; cbn [PyText.occurs]; intros H;
    now apply orb_false_iff in H.
Qed.

(** X23.  A sticker id in which the scheme ["ndcsticker://"] does not
    occur may be given bare or with the scheme in front: both calls hand
    the same keyword arguments to [__send_message__], with [stickerId]
    the bare id and [mediaValue] the id with the scheme. *)
Theorem sticker_scheme_is_optional (bare : string) :
  PyText.occurs "ndcsticker://" bare = false ->
  send_sticker bare = mkSticker 3 bare ("ndcsticker://" +:+ bare)
  /\ send_sticker ("ndcsticker://" +:+ bare) = send_sticker bare.
Proof.
  intros Habsent.
  assert (Hbare : send_sticker bare
                  = mkSticker 3 bare ("ndcsticker://" +:+ bare)).
  { unfold send_sticker. now rewrite (absent_not_leading _ _ Habsent). }
  split; [exact Hbare|]. rewrite Hbare. unfold send_sticker.
  rewrite startswith_app, replace_leading by discriminate.
  now rewrite (replace_absent _ _ _ Habsent).
Qed.

Lemma sticker_scheme_is_optional_witness :
  send_sticker "e/abc" = mkSticker 3 "e/abc" "ndcsticker://e/abc"
  /\ send_sticker ("ndcsticker://" +:+ "e/abc") = send_sticker "e/abc".
Proof.
  apply (sticker_scheme_is_optional "e/abc"). reflexivity.
Defined.

(** The scheme is removed wherever it occurs in an id that begins with
    it, not only in front. *)
Example sticker_inner_scheme_removed :
  send_sticker "ndcsticker://a-ndcsticker://b"
  = mkSticker 3 "a-b" "ndcsticker://a-b".
Proof. reflexivity. Qed.

(** X24.  The type check of [__handle_media__] for media that is neither
    audio nor to be uploaded: a file read from disk is returned
    unchecked; a download is returned when its [content-type] header
    begins with ["image"], raises [InvalidImage] when the header begins
    otherwise, and raises the [AttributeError] of [None.startswith] when
    the response has no such header. *)
Theorem media_type_check (w : MediaWorld) (media content_type bytes : string)
    (r : Response) :
  content_type <> "audio/aac" ->
  (PyText.startswith "http" media = false ->
   read_file w media = Some bytes ->
   __handle_media__ w media content_type false = Media (RawBytes bytes))
  /\ (PyText.startswith "http" media = true ->
      http_get w media = Some r ->
      __handle_media__ w media content_type false
      = match content_type_header r with
        | None => MediaRaise NoneHasNoStartswith
        | Some header =>
            if PyText.startswith "image" header
            then Media (RawBytes (resp_content r))
            else MediaRaise InvalidImage
        end).
Proof.
  intros Hct. apply String.eqb_neq in Hct.
  split; intros Hhttp Hfetch; unfold __handle_media__;
    rewrite Hhttp, Hfetch, Hct; [reflexivity|].
  destruct (content_type_header r) as [header|]; [|reflexivity].
  now destruct (PyText.startswith "image" header).
Qed.

Lemma media_type_check_witness :
  let w := mkMediaWorld
             (fun _ => Some (mkResponse "<html>" (Some "text/html")))
             (fun _ => Some "GIF89a") (fun b => b) (fun b _ => b) in
  __handle_media__ w "cat.gif" "image/gif" false = Media (RawBytes "GIF89a")
  /\ __handle_media__ w "https://example.org/a" "image/jpg" false
     = MediaRaise InvalidImage.
Proof.
  intros w. split.
  - refine (proj1 (media_type_check w "cat.gif" "image/gif" "GIF89a"
                     (mkResponse "<html>" (Some "text/html")) _) _ _).
    + discriminate.
    + reflexivity.
    + reflexivity.
  - refine (proj2 (media_type_check w "https://example.org/a" "image/jpg"
                     "GIF89a" (mkResponse "<html>" (Some "text/html")) _)
              _ _).
    + discriminate.
    + reflexivity.
    + reflexivity.
Defined.

(** X25.  Audio and uploads are never type-checked: once the media has
    been fetched, content type ["audio/aac"] returns the base64 text of
    the bytes even when an upload was asked for, and any other content
    type with [media_value] set returns what the upload answers; the
    response's [content-type] header plays no part, and a media that
    could not be fetched raises [InvalidImage] in every case. *)
Theorem media_check_is_skipped (w : MediaWorld)
    (media content_type : string) (media_value : bool) :
  let fetched :=
    if PyText.startswith "http" media
    then option_map resp_content (http_get w media)
    else read_file w media in
  (fetched = None ->
   __handle_media__ w media content_type media_value
   = MediaRaise InvalidImage)
  /\ (forall bytes : string,
         fetched = Some bytes ->
         (content_type = "audio/aac" ->
          __handle_media__ w media content_type media_value
          = Media (Text (b64encode w bytes)))
         /\ (content_type <> "audio/aac" ->
             __handle_media__ w media content_type true
             = Media (Text (upload w bytes content_type)))).
Proof.
  intros fetched. unfold fetched, __handle_media__. split.
  - destruct (PyText.startswith "http" media).
    + destruct (http_get w media); [discriminate | reflexivity].
    + destruct (read_file w media); [discriminate | reflexivity].
  - intros bytes Hf. split.
    + intros ->. cbn [String.eqb Ascii.eqb Bool.eqb andb].
      destruct (PyText.startswith "http" media).
      * destruct (http_get w media) as [r|]; [|discriminate].
        now injection Hf as <-.
      * destruct (read_file w media) as [b|]; [|discriminate].
        now injection Hf as <-.
    + intros Hct. apply String.eqb_neq in Hct. rewrite Hct.
      destruct (PyText.startswith "http" media).
      * destruct (http_get w media) as [r|]; [|discriminate].
        now injection Hf as <-.
      * destruct (read_file w media) as [b|]; [|discriminate].
        now injection Hf as <-.
Qed.

(** ** Message preparation *)

Lemma parse_kwargs_lookup (uid : value) (kwargs : gmap string value)
    (k : string) :
  __parse_kwargs__ uid kwargs !! k
  = if bool_decide (k ∈ message_keys) then Some (kwargs_get kwargs k)
    else if String.eqb k "uid" then Some uid
    else None.
Proof.
  unfold __parse_kwargs__, message_keys.
  repeat match goal with
         | |- <[?i := _]> _ !! k = _ =>
             destruct (decide (i = k)) as [<-|];
             [now rewrite lookup_insert_eq | rewrite lookup_insert_ne by done]
         end.
  destruct (decide ("uid" = k)) as [<-|Hne];
    [now rewrite lookup_singleton_eq|].
  rewrite lookup_singleton_ne by done.
  rewrite bool_decide_eq_false_2
    by (rewrite !elem_of_cons, elem_of_nil; intuition congruence).
  destruct (String.eqb_spec k "uid"); [congruence | reflexivity].
Qed.

(** X26.  [__prepare_message__] keeps, of the keyword arguments, exactly
    the seven message keys whose value is not [None], adds ["uid"] with
    the bot's own user id (when that is not [None]) whatever [uid] the
    caller passed, and has no other key: no value of the result is
    [None] and no foreign keyword gets through. *)
Theorem prepare_message_keys (uid : value) (kwargs : gmap string value)
    (k : string) :
  __prepare_message__ uid kwargs !! k
  = if bool_decide (k ∈ message_keys) then
      match kwargs !! k with
      | Some v => if is_None v then None else Some v
      | None => None
      end
    else if String.eqb k "uid" then (if is_None uid then None else Some uid)
    else None.
Proof.
  unfold __prepare_message__, __purge__.
  destruct (__parse_kwargs__ uid kwargs !! k) as [v|] eqn:Hk.
  - rewrite parse_kwargs_lookup in Hk.
    assert (Hf : filter (fun kv : string * value => is_None (snd kv) = false)
                   (__parse_kwargs__ uid kwargs) !! k
                 = if is_None v then None else Some v).
    { destruct (is_None v) eqn:Hv.
      - apply map_lookup_filter_None. right. intros v' Hv'.
        rewrite parse_kwargs_lookup, Hk in Hv'. injection Hv' as <-.
        cbn [snd]. now rewrite Hv.
      - apply map_lookup_filter_Some. split; [|exact Hv].
        now rewrite parse_kwargs_lookup. }
    rewrite Hf. clear Hf. revert Hk.
    destruct (bool_decide (k ∈ message_keys)).
    + intros [= <-]. unfold kwargs_get.
      destruct (kwargs !! k) as [v'|]; reflexivity.
    + destruct (String.eqb k "uid"); [|discriminate].
      intros [= <-]. reflexivity.
  - rewrite (proj2 (map_lookup_filter_None _ _ _)) by (left; exact Hk).
    rewrite parse_kwargs_lookup in Hk. revert Hk.
    destruct (bool_decide (k ∈ message_keys)); [discriminate|].
    destruct (String.eqb k "uid"); [discriminate | reflexivity].
Qed.

(** The values of a prepared message are never [None]. *)
Lemma prepare_message_purged (uid : value) (kwargs : gmap string value)
    (k : string) (v : value) :
  __prepare_message__ uid kwargs !! k = Some v -> is_None v = false.
Proof.
  unfold __prepare_message__, __purge__. intros H.
  now apply map_lookup_filter_Some in H as [_ H].
Qed.

Example prepare_message_example :
  __prepare_message__ (VStr "bot")
    {[ "content" := VStr "hi"; "type" := VNone; "uid" := VStr "mallory";
       "secret" := VInt 1 ]}
  = {[ "content" := VStr "hi"; "uid" := VStr "bot" ]}.
Proof.
  apply map_eq. intros k. rewrite prepare_message_keys.
  destruct (decide (k = "content")) as [->|Hc]; [reflexivity|].
  destruct (decide (k = "uid")) as [->|Hu]; [reflexivity|].
  destruct (decide (k = "type")) as [->|Ht]; [reflexivity|].
  destruct (decide (k = "secret")) as [->|Hs]; [reflexivity|].
  rewrite !lookup_insert_ne, !lookup_singleton_ne by congruence.
  destruct (bool_decide (k ∈ message_keys)); [reflexivity|].
  destruct (String.eqb_spec k "uid"); [congruence | reflexivity].
Qed.

(** ** Malformed text messages *)

(** X27.  A message that invokes a registered command but has no author
    never reaches the command's handler: the router raises
    [AttributeError] (at the cooldown check when the command has a
    positive cooldown, when resolving the parameters otherwise) and
    leaves the state as it was, no clock reading taken and no cooldown
    recorded. *)
Theorem authorless_invocation (clock : nat -> Z) (text_first : bool)
    (bot : Bot) (data : Message) (context : Context)
    (token rest text : string) (c : Command) (s : State) :
  content data = Some text ->
  invokes (command_prefix bot) token rest text ->
  command_exists bot token = true ->
  CommandTable.fetch_command (_commands bot) (canonical bot token) = Ok c ->
  author data = None ->
  ctx_message context = data ->
  _handle_command clock text_first bot data context s
  = (Raise AttributeError, s).
Proof.
  intros Hcontent Hinv Hex Hfetch Ha Hctx.
  rewrite (handle_command_routed clock text_first bot data context
             token rest text Hcontent Hinv Hex).
  unfold _check_cooldown, fetch_command, author_userId.
  cbn [bind lift]. rewrite Hfetch, Ha.
  destruct (0 <? cooldown c); [reflexivity|].
  cbn [ret negb Z.eqb Pos.eqb bind lift].
  rewrite (resolver_needs_author context (func c) (VStr rest))
    by now rewrite Hctx.
  reflexivity.
Qed.

Lemma authorless_invocation_witness :
  _handle_command Examples.seconds_clock true Examples.slow_bot
    (Examples.anonymous "!ping") (mkContext false (Examples.anonymous "!ping"))
    Examples.two_waiting
  = (Raise AttributeError, Examples.two_waiting).
Proof.
  apply (authorless_invocation Examples.seconds_clock true Examples.slow_bot
           (Examples.anonymous "!ping")
           (mkContext false (Examples.anonymous "!ping"))
           "ping" "" "!ping" Examples.slow_ping Examples.two_waiting).
  - reflexivity.
  - repeat (split; [reflexivity|]). left; split; reflexivity.
  - reflexivity.
  - reflexivity.
  - reflexivity.
  - reflexivity.
Defined.

(** X28.  A ["text_message"] event whose payload has no content makes
    [_handle_event] raise [TypeError] at its first subscript of the
    content, before anything is recorded, routed or called; the
    exception is not silenced. *)
Theorem contentless_text_message (clock : nat -> Z) (text_first : bool)
    (bot : Bot) (data : Message) (s : State) :
  content data = None ->
  _handle_event clock text_first bot "text_message" data s
  = (Raise TypeError, s).
Proof.
  intros Hc. unfold _handle_event, suppress_KeyError, subscript_content.
  now rewrite Hc.
Qed.

Lemma contentless_text_message_witness :
  _handle_event Examples.seconds_clock true Examples.console_bot
    "text_message" (mkMessage None "chat1" 1 (Some Examples.alice))
    Examples.fresh
  = (Raise TypeError, Examples.fresh).
Proof.
  apply (contentless_text_message Examples.seconds_clock true
           Examples.console_bot (mkMessage None "chat1" 1 (Some Examples.alice))
           Examples.fresh).
  reflexivity.
Defined.
